(** * 8004 Pawn Shop gateway (api/main.py): scoring, pricing and the
      deposit / purchase / access operations.

    The development embeds [api/main.py] shallowly:
    - Python [str] values are lists of code points, [bytes] are lists of
      [Byte.byte], Python [int] is [Z];
    - Python [float] is IEEE 754 binary64, taken from the Standard Library's
      [SpecFloat] (precision 53, [emax] 1024, round to nearest even);
    - an exception is a value of [exn]; a computation that may raise returns
      a [result];
    - the collaborators (the ledger behind web3, the pinning service behind
      requests) are functions on an abstract world, and every call to one of
      them is recorded in a trace. *)

From Stdlib Require Import ZArith List Bool Lia String Ascii.
From Stdlib.Strings Require Import Byte.
From Stdlib Require Import SpecFloat DecimalString.
Import ListNotations.
Local Open Scope Z_scope.

(** ** Exceptions and results *)

Definition str := list N.
Definition bytes := list byte.

(** [lit "def "] is the Python literal ["def "]. *)
Definition lit (s : string) : str :=
  List.map N_of_ascii (list_ascii_of_string s).

Inductive exn : Type :=
| HTTPException (status_code : Z) (detail : str)
| ZeroDivisionError
| OverflowError
| ValueError
| KeyError (key : str)
| UnicodeEncodeError
| LibraryError (what : str).

Inductive result (A : Type) : Type :=
| Ok (a : A)
| Err (e : exn).
Arguments Ok {A} a.
Arguments Err {A} e.

Definition rbind {A B} (r : result A) (k : A -> result B) : result B :=
  match r with
  | Ok a => k a
  | Err e => Err e
  end.

Declare Scope result_scope.
Delimit Scope result_scope with result.
Notation "'let?' x ':=' r 'in' k" := (rbind r (fun x => k))
  (at level 10, x name, r at level 100, k at level 200) : result_scope.

(** ** Python [str] and [bytes] builtins used by the gateway *)

Module Py.

Fixpoint str_eqb (a b : str) : bool :=
  match a, b with
  | [], [] => true
  | x :: a', y :: b' => N.eqb x y && str_eqb a' b'
  | _, _ => false
  end.

(** [s.startswith(p)] *)
Fixpoint startswith (p s : str) : bool :=
  match p, s with
  | [], _ => true
  | x :: p', y :: s' => N.eqb x y && startswith p' s'
  | _ :: _, [] => false
  end.

(** [p in s] *)
Fixpoint contains (p s : str) : bool :=
  startswith p s ||
  match s with
  | [] => false
  | _ :: s' => contains p s'
  end.

(** [s.count(c)] for a one-character [c]. *)
Fixpoint count (c : N) (s : str) : nat :=
  match s with
  | [] => O
  | x :: s' => if N.eqb x c then S (count c s') else count c s'
  end.

(** [s.split(c)] for a one-character separator [c]: never empty,
    [''.split(c) == ['']]. *)
Fixpoint split (c : N) (s : str) : list str :=
  match s with
  | [] => [[]]
  | x :: s' =>
      if N.eqb x c then [] :: split c s'
      else match split c s' with
           | l :: ls => (x :: l) :: ls
           | [] => [[x]]
           end
  end.

(** [s.replace(old, new)] for a non-empty [old]: occurrences are replaced
    from the left and do not overlap. [skip] counts the characters of a
    matched occurrence still to be dropped. *)
Fixpoint replace_from (old new : str) (skip : nat) (s : str) : str :=
  match s with
  | [] => []
  | x :: s' =>
      match skip with
      | S k => replace_from old new k s'
      | O =>
          if startswith old s
          then new ++ replace_from old new (Nat.pred (List.length old)) s'
          else x :: replace_from old new O s'
      end
  end.

Definition replace (old new s : str) : str := replace_from old new O s.

Definition len {A} (l : list A) : Z := Z.of_nat (List.length l).

(** [sum(xs)] on a list of ints. *)
Definition sum (xs : list Z) : Z := List.fold_left Z.add xs 0.

(** [str(n)] for an int. *)
Definition str_of_int (n : Z) : str :=
  lit (NilZero.string_of_int (Z.to_int n)).

(** ASCII whitespace, as [bytes.fromhex] skips it. *)
Definition is_space (c : N) : bool :=
  (N.eqb c 32 || N.eqb c 9 || N.eqb c 10 || N.eqb c 11 || N.eqb c 12
   || N.eqb c 13)%bool.

Definition hex_digit (c : N) : option N :=
  (if (48 <=? c) && (c <=? 57) then Some (c - 48)
   else if (97 <=? c) && (c <=? 102) then Some (c - 87)
   else if (65 <=? c) && (c <=? 70) then Some (c - 55)
   else None)%N.

(** [bytes.fromhex(s)]: two hexadecimal digits per byte, ASCII whitespace
    between bytes ignored; [ValueError] otherwise. *)
Fixpoint fromhex (s : str) : result bytes :=
  match s with
  | [] => Ok []
  | c :: rest =>
      if is_space c then fromhex rest
      else match hex_digit c, rest with
           | Some hi, d :: rest' =>
               match hex_digit d with
               | Some lo =>
                   match Byte.of_N (16 * hi + lo) with
                   | Some b => rbind (fromhex rest') (fun bs => Ok (b :: bs))
                   | None => Err ValueError
                   end
               | None => Err ValueError
               end
           | _, _ => Err ValueError
           end
  end.

End Py.

(** ** Python [float]: IEEE 754 binary64 *)

Module PyFloat.

Definition prec : Z := 53.
Definition emax : Z := 1024.
Definition float := spec_float.

(** Conversion of an int operand to float: correctly rounded, and
    [OverflowError] when the int is too large. *)
Definition of_int (n : Z) : result float :=
  match binary_normalize prec emax n 0 false with
  | S754_infinity _ => Err OverflowError
  | f => Ok f
  end.

(** [a / b] on ints. The operands are converted and the quotient is
    rounded once; for operands below [2^53] in absolute value (all the
    gateway ever divides) the conversions are exact, so this is Python's
    correctly rounded true division. *)
Definition truediv (a b : Z) : result float :=
  if b =? 0 then Err ZeroDivisionError
  else
    (let? x := of_int a in
     let? y := of_int b in
     match SFdiv prec emax x y with
     | S754_infinity _ => Err OverflowError
     | q => Ok q
     end)%result.

(** [n * x] for an int [n] and a float [x]. *)
Definition int_mul (n : Z) (x : float) : result float :=
  (let? y := of_int n in Ok (SFmul prec emax y x))%result.

(** [int(x)]: truncation towards zero; [OverflowError] on an infinity,
    [ValueError] on a NaN. *)
Definition to_int (x : float) : result Z :=
  match x with
  | S754_zero _ => Ok 0
  | S754_infinity _ => Err OverflowError
  | S754_nan => Err ValueError
  | S754_finite s m e =>
      let mag := match e with
                 | Zneg p => Z.shiftr (Zpos m) (Zpos p)
                 | _ => Z.shiftl (Zpos m) e
                 end in
      Ok (if s then - mag else mag)
  end.

(** The literal [0.85]: the binary64 number nearest to 85/100. *)
Definition lit_0_85 : float := S754_finite false 7656119366529843 (-53).

End PyFloat.

(** ** Quality scoring: [estimate_quality] *)

Definition NL : N := 10.

(** The list [scores] as it stands before the average is taken. *)
Definition sub_scores (code : str) : list Z :=
  let scores := [] in
  (* Length check *)
  let lines := Z.of_nat (Py.count NL code) + 1 in
  let scores :=
    scores ++ [if (10 <=? lines) && (lines <=? 500) then 100
               else if lines <? 10 then 50
               else 70] in
  (* Has structure *)
  let scores :=
    scores ++ [if Py.contains (lit "def ") code
                  || Py.contains (lit "class ") code
                  || Py.contains (lit "function ") code
               then 100 else 60] in
  (* Has comments/docs *)
  let scores :=
    scores ++ [if Py.contains (lit "#") code
                  || Py.contains (lit "//") code
                  || Py.contains [34; 34; 34]%N code
               then 90 else 70] in
  (* Line lengths *)
  let long_lines :=
    Py.len (List.filter (fun line => 120 <? Py.len line) (Py.split NL code)) in
  let scores :=
    scores ++ [if long_lines =? 0 then 100
               else if long_lines <? 5 then 80
               else 50] in
  scores.

Definition estimate_quality (code : str) : result Z :=
  let scores := sub_scores code in
  (let? avg := PyFloat.truediv (Py.sum scores) (Py.len scores) in
   let? i := PyFloat.to_int avg in
   Ok (Z.max 10 (Z.min 100 i)))%result.

(** ** Pricing, as [evaluate] and [deposit] compute it *)

(** [quality * 10] *)
Definition credits_of (quality : Z) : Z := quality * 10.

(** [int(credits * 0.85)] *)
Definition price_of (credits : Z) : result Z :=
  (let? p := PyFloat.int_mul credits PyFloat.lit_0_85 in
   PyFloat.to_int p)%result.

(** ** Configuration, pure library functions, collaborators *)

Record Config : Type := {
  PAWN_SHOP_ADDRESS : str;
  PINATA_API_KEY : str;
  PINATA_SECRET : str
}.

Definition CHAIN_ID : Z := 8453.
Definition IPFS_GATEWAY : str := lit "https://gateway.pinata.cloud/ipfs/".

(** Local, pure library functions. The two digests first encode the text as
    UTF-8, which raises [UnicodeEncodeError] on a text that cannot be
    encoded (a lone surrogate). *)
Record Lib : Type := {
  (** [w3.keccak(text=code)] *)
  w3_keccak : str -> result bytes;
  (** [HexBytes.hex()] *)
  hexbytes_hex : bytes -> str;
  (** [hashlib.sha256(content.encode()).hexdigest()] *)
  sha256_hexdigest : str -> result str;
  (** [Account.from_key(private_key).address] *)
  account_from_key : str -> result str;
  (** [account.sign_transaction(tx).rawTransaction], by the account of the
      given key *)
  account_sign_transaction : str -> list (str * (Z + str)) -> result bytes
}.

(** A transaction dictionary: keys to ints or strings. *)
Definition dict := list (str * (Z + str)).

(** [d[k] = v] *)
Fixpoint dict_set (k : str) (v : Z + str) (d : dict) : dict :=
  match d with
  | [] => [(k, v)]
  | (k', v') :: d' =>
      if Py.str_eqb k' k then (k, v) :: d' else (k', v') :: dict_set k v d'
  end.

(** The tuple returned by [getPattern]: [pattern[0]] .. [pattern[5]]. *)
Record Pattern : Type := {
  p_ipfsUri : str;
  p_seller : str;
  p_price : Z;
  p_quality : Z;
  p_timesSold : Z;
  p_active : bool
}.

(** A function of the PawnShop contract applied to its arguments. *)
Inductive ContractFn : Type :=
| FnDeposit (codeHash : bytes) (ipfsUri : str) (quality : Z)
| FnPurchase (codeHash : bytes)
| FnHasAccess (buyer : str) (codeHash : bytes)
| FnGetPattern (codeHash : bytes).

(** An HTTP response of the pinning service: [r.status_code], [r.text] and
    [r.json()], the decoded body (an object with string fields) or the
    exception decoding raises. *)
Record Response : Type := {
  status_code : Z;
  text : str;
  json : result (list (str * str))
}.

Fixpoint lookup (k : str) (d : list (str * str)) : option str :=
  match d with
  | [] => None
  | (k', v) :: d' => if Py.str_eqb k' k then Some v else lookup k d'
  end.

(** What the gateway asks of its collaborators, in the order it asks. *)
Inductive Event : Type :=
| EthCall (address : str) (fn : ContractFn)
| BuildTransaction (address : str) (fn : ContractFn)
| GetTransactionCount (account : str)
| GasPrice
| SignTransaction (tx : dict)
| SendRawTransaction (raw : bytes)
| RequestsPost (url : str) (content : str)
| RequestsGet (url : str).

(** The Store Port is the pinning service reached through [requests]. *)
Definition is_store (ev : Event) : bool :=
  match ev with
  | RequestsPost _ _ | RequestsGet _ => true
  | _ => false
  end.

(** The Ledger Port is everything reached through [w3] and the account. *)
Definition is_ledger (ev : Event) : bool := negb (is_store ev).

(** Ledger writes: a transaction built, signed or sent. *)
Definition is_ledger_write (ev : Event) : bool :=
  match ev with
  | BuildTransaction _ _ | SignTransaction _ | SendRawTransaction _ => true
  | _ => false
  end.

(** The collaborators, as functions on the state of the world. *)
Record Ports (World : Type) : Type := {
  (** [contract.functions.getPattern(h).call()] *)
  call_getPattern : str -> bytes -> World -> result Pattern * World;
  (** [contract.functions.hasAccess(buyer, h).call()] *)
  call_hasAccess : str -> str -> bytes -> World -> result bool * World;
  (** [contract.functions.f(args).build_transaction(params)] *)
  build_transaction : str -> ContractFn -> dict -> World -> result dict * World;
  (** [w3.eth.get_transaction_count(address)] *)
  get_transaction_count : str -> World -> result Z * World;
  (** [w3.eth.gas_price] *)
  gas_price : World -> result Z * World;
  (** [w3.eth.send_raw_transaction(raw)] *)
  send_raw_transaction : bytes -> World -> result bytes * World;
  (** [requests.post(url, json=..., headers=...)] with the content, the API
      key and the secret *)
  requests_post : str -> str -> str -> str -> World -> result Response * World;
  (** [requests.get(url)] *)
  requests_get : str -> World -> result Response * World
}.
Arguments call_getPattern {World}.
Arguments call_hasAccess {World}.
Arguments build_transaction {World}.
Arguments get_transaction_count {World}.
Arguments gas_price {World}.
Arguments send_raw_transaction {World}.
Arguments requests_post {World}.
Arguments requests_get {World}.

(** ** The monad of gateway operations: a world, a trace, exceptions *)

Record St (World : Type) : Type := {
  world : World;
  trace : list Event
}.
Arguments Build_St {World}.
Arguments world {World}.
Arguments trace {World}.

Definition M (World A : Type) : Type := St World -> result A * St World.

Section Monad.
Context {World : Type}.

Definition ret {A} (a : A) : M World A := fun st => (Ok a, st).

Definition raise {A} (e : exn) : M World A := fun st => (Err e, st).

Definition lift {A} (r : result A) : M World A := fun st => (r, st).

Definition bind {A B} (c : M World A) (k : A -> M World B) : M World B :=
  fun st =>
    match c st with
    | (Ok a, st') => k a st'
    | (Err e, st') => (Err e, st')
    end.

(** A call to a collaborator (or a signature by the local account, which
    leaves the world as it is): logged, then answered. *)
Definition port {A} (ev : Event) (f : World -> result A * World) : M World A :=
  fun st =>
    let (r, w') := f (world st) in
    (r, {| world := w'; trace := trace st ++ [ev] |}).

(** [try: c except: h] with a bare [except]. *)
Definition try_except {A} (c : M World A) (h : M World A) : M World A :=
  fun st =>
    match c st with
    | (Ok a, st') => (Ok a, st')
    | (Err _, st') => h st'
    end.
End Monad.

Declare Scope gateway_scope.
Delimit Scope gateway_scope with gateway.
Notation "x <- c ;; k" := (bind c (fun x => k))
  (at level 61, c at next level, right associativity) : gateway_scope.

(** ** Requests and responses *)

Record DepositRequest : Type := {
  dr_code : str;
  dr_language : str;
  dr_private_key : option str
}.

Record PurchaseRequest : Type := {
  pr_code_hash : str;
  pr_private_key : str
}.

Record EvaluateResponse : Type := {
  ev_code_hash : str;
  ev_quality : Z;
  ev_estimated_credits : Z;
  ev_estimated_price : Z;
  ev_recommendation : str
}.

(** The ["tx_data"] of an unsigned deposit. *)
Record TxData : Type := {
  td_to : str;
  td_function : str;
  td_args : str * str * Z
}.

Inductive DepositResponse : Type :=
| Unsigned (code_hash ipfs_uri : str) (quality estimated_credits : Z)
           (tx_data : TxData) (message : str)
| Deposited (code_hash ipfs_uri : str) (quality credits : Z)
            (tx_hash message : str).

Record PurchaseResponse : Type := {
  pu_code_hash : str;
  pu_price : Z;
  pu_tx_hash : str;
  pu_message : str
}.

(** The dictionary of [check_access]; the key ["ipfs_uri"] is present only
    in the second return, [code] may be [None]. *)
Record AccessResponse : Type := {
  ac_has_access : bool;
  ac_ipfs_uri : option str;
  ac_code : option str
}.

(** [not s] for an [Optional[str]]: true on [None] and on the empty string. *)
Definition falsy (s : option str) : bool :=
  match s with
  | None => true
  | Some [] => true
  | Some (_ :: _) => false
  end.

(** ** The gateway *)

Section Gateway.
Context {World : Type}.
Variable cfg : Config.
Variable lib : Lib.
Variable ports : Ports World.

Local Open Scope gateway_scope.

(** The contract handle is its address. The checks [w3.eth.contract] makes
    on a non-empty address are not modelled here: the theorems below that
    go past this point assume an answer of the ledger at that address. *)
Definition get_pawn_shop : M World str :=
  match PAWN_SHOP_ADDRESS cfg with
  | [] => raise (HTTPException 500 (lit "PawnShop contract not configured"))
  | address => ret address
  end.

Definition hash_code (code : str) : result bytes := w3_keccak lib code.

Definition sign_and_send (tx : dict) (private_key : str) : M World str :=
  account <- lift (account_from_key lib private_key) ;;
  let tx := dict_set (lit "from") (inr account) tx in
  nonce <- port (GetTransactionCount account)
                (get_transaction_count ports account) ;;
  let tx := dict_set (lit "nonce") (inl nonce) tx in
  let tx := dict_set (lit "gas") (inl 300000) tx in
  price <- port GasPrice (gas_price ports) ;;
  let tx := dict_set (lit "gasPrice") (inl price) tx in
  raw <- port (SignTransaction tx)
              (fun w => (account_sign_transaction lib private_key tx, w)) ;;
  tx_hash <- port (SendRawTransaction raw) (send_raw_transaction ports raw) ;;
  ret (hexbytes_hex lib tx_hash).

Definition upload_to_ipfs (content : str) : M World str :=
  match PINATA_API_KEY cfg with
  | [] =>
      (* Fallback: return hash as mock URI *)
      digest <- lift (sha256_hexdigest lib content) ;;
      let content_hash := firstn 16 digest in
      ret (lit "ipfs://mock/" ++ content_hash)
  | _ :: _ =>
      let url := lit "https://api.pinata.cloud/pinning/pinJSONToIPFS" in
      r <- port (RequestsPost url content)
                (requests_post ports url content (PINATA_API_KEY cfg)
                               (PINATA_SECRET cfg)) ;;
      if status_code r =? 200 then
        body <- lift (json r) ;;
        match lookup (lit "IpfsHash") body with
        | Some ipfs_hash => ret (lit "ipfs://" ++ ipfs_hash)
        | None => raise (KeyError (lit "IpfsHash"))
        end
      else
        raise (HTTPException 500 (lit "IPFS upload failed: " ++ text r))
  end.

Definition fetch_from_ipfs (uri : str) : M World str :=
  if Py.startswith (lit "ipfs://mock/") uri then
    raise (HTTPException 404 (lit "Mock IPFS content not available"))
  else
    let ipfs_hash := Py.replace (lit "ipfs://") (lit "") uri in
    let url := IPFS_GATEWAY ++ ipfs_hash in
    r <- port (RequestsGet url) (requests_get ports url) ;;
    if status_code r =? 200 then
      body <- lift (json r) ;;
      match lookup (lit "code") body with
      | Some code => ret code
      | None => ret (lit "")
      end
    else
      raise (HTTPException 404 (lit "IPFS content not found")).

(** [/api/evaluate]: no collaborator is involved. *)
Definition evaluate (code : str) (language : str) : result EvaluateResponse :=
  (let? quality := estimate_quality code in
   let credits := credits_of quality in
   let? price := price_of credits in
   let? code_hash := hash_code code in
   let code_hash := hexbytes_hex lib code_hash in
   Ok {| ev_code_hash := code_hash;
         ev_quality := quality;
         ev_estimated_credits := credits;
         ev_estimated_price := price;
         ev_recommendation :=
           if 50 <=? quality then lit "deposit" else lit "improve_quality" |}
  )%result.

(** [/api/deposit] *)
Definition deposit (req : DepositRequest) : M World DepositResponse :=
  if Py.len (dr_code req) <? 50 then
    raise (HTTPException 400 (lit "Code too short (min 50 chars)"))
  else
    (* Calculate quality *)
    quality <- lift (estimate_quality (dr_code req)) ;;
    (* Hash code *)
    code_hash <- lift (hash_code (dr_code req)) ;;
    (* Upload to IPFS *)
    ipfs_uri <- upload_to_ipfs (dr_code req) ;;
    (* If no private key, return unsigned tx data *)
    if falsy (dr_private_key req) then
      ret (Unsigned (hexbytes_hex lib code_hash) ipfs_uri quality
             (quality * 10)
             {| td_to := PAWN_SHOP_ADDRESS cfg;
                td_function := lit "deposit";
                td_args := (hexbytes_hex lib code_hash, ipfs_uri, quality) |}
             (lit "Sign and submit this transaction to deposit"))
    else
      let private_key := match dr_private_key req with
                         | Some key => key
                         | None => []
                         end in
      (* Sign and send transaction *)
      pawn_shop <- get_pawn_shop ;;
      let fn := FnDeposit code_hash ipfs_uri quality in
      tx <- port (BuildTransaction pawn_shop fn)
                 (build_transaction ports pawn_shop fn
                    [(lit "chainId", inl CHAIN_ID)]) ;;
      tx_hash <- sign_and_send tx private_key ;;
      ret (Deposited (hexbytes_hex lib code_hash) ipfs_uri quality
             (quality * 10) tx_hash
             (lit "Deposited! +" ++ Py.str_of_int (quality * 10)
                ++ lit " $RECYCLE")).

(** [/api/purchase] *)
Definition purchase (req : PurchaseRequest) : M World PurchaseResponse :=
  code_hash <- lift (Py.fromhex (Py.replace (lit "0x") (lit "")
                                   (pr_code_hash req))) ;;
  pawn_shop <- get_pawn_shop ;;
  (* Get pattern info first *)
  pattern <- port (EthCall pawn_shop (FnGetPattern code_hash))
                  (call_getPattern ports pawn_shop code_hash) ;;
  if negb (p_active pattern) then
    raise (HTTPException 404 (lit "Pattern not found or inactive"))
  else
    let price := p_price pattern in
    (* Build and send transaction *)
    let fn := FnPurchase code_hash in
    tx <- port (BuildTransaction pawn_shop fn)
               (build_transaction ports pawn_shop fn
                  [(lit "chainId", inl CHAIN_ID)]) ;;
    tx_hash <- sign_and_send tx (pr_private_key req) ;;
    ret {| pu_code_hash := pr_code_hash req;
           pu_price := price;
           pu_tx_hash := tx_hash;
           pu_message := lit "Purchased! -" ++ Py.str_of_int price
                           ++ lit " $RECYCLE" |}.

(** [/api/access] *)
Definition check_access (buyer code_hash : str) : M World AccessResponse :=
  code_hash_bytes <- lift (Py.fromhex (Py.replace (lit "0x") (lit "")
                                         code_hash)) ;;
  pawn_shop <- get_pawn_shop ;;
  has_access <- port (EthCall pawn_shop (FnHasAccess buyer code_hash_bytes))
                     (call_hasAccess ports pawn_shop buyer code_hash_bytes) ;;
  if negb has_access then
    ret {| ac_has_access := false; ac_ipfs_uri := None; ac_code := None |}
  else
    (* Get IPFS URI and fetch code *)
    pattern <- port (EthCall pawn_shop (FnGetPattern code_hash_bytes))
                    (call_getPattern ports pawn_shop code_hash_bytes) ;;
    let ipfs_uri := p_ipfsUri pattern in
    code <- try_except
              (code <- fetch_from_ipfs ipfs_uri ;; ret (Some code))
              (ret None) ;;
    ret {| ac_has_access := true;
           ac_ipfs_uri := Some ipfs_uri;
           ac_code := code |}.

End Gateway.

(** ** Sample texts *)

(** ["\n".join(lines)] *)
Fixpoint join_lines (lines : list str) : str :=
  match lines with
  | [] => []
  | [l] => l
  | l :: ls => l ++ NL :: join_lines ls
  end.

(** Sixty lines: a commented function header and fifty-nine short lines. *)
Definition text60 : str :=
  join_lines (lit "def price(q):  # credits for a score"
                :: repeat (lit "    q = q + 1") 59).

(** Five lines of 121 characters each, no keyword, no comment marker. *)
Definition text_low : str :=
  join_lines (repeat (repeat 97%N 121) 5).

(** The scenario of a well-formed text of sixty lines. *)
Definition scenario60 (t : str) : Prop :=
  Z.of_nat (Py.count NL t) + 1 = 60 /\
  (Py.contains (lit "def ") t || Py.contains (lit "class ") t
   || Py.contains (lit "function ") t = true) /\
  (Py.contains (lit "#") t || Py.contains (lit "//") t
   || Py.contains [34; 34; 34]%N t = true) /\
  forallb (fun line => Py.len line <=? 120) (Py.split NL t) = true.

(** The final score as the specification words it: the average rounded half
    up, then clamped. *)
Definition round_half_up_score (scores : list Z) : Z :=
  let n := Py.len scores in
  Z.max 10 (Z.min 100 ((2 * Py.sum scores + n) / (2 * n))).

(** The final score with the average truncated towards zero. *)
Definition truncated_score (scores : list Z) : Z :=
  Z.max 10 (Z.min 100 (Z.quot (Py.sum scores) (Py.len scores))).

(** 97.5 and 57.5 in binary64. *)
Definition f97_5 : PyFloat.float := S754_finite false 6860952557322240 (-46).
Definition f57_5 : PyFloat.float := S754_finite false 8092405580431360 (-47).

(** The pricing of one score checked against exact arithmetic: the price is
    computed, is the floor of 85 hundredths of the credits, and does not
    exceed the credits. *)
Definition pricing_check (q : Z) : bool :=
  match price_of (credits_of q) with
  | Ok p => (p =? credits_of q * 85 / 100) && (p <=? credits_of q)
  | Err _ => false
  end.

(** The scores from 10 to 100. *)
Definition all_scores : list Z := List.map Z.of_nat (seq 10 91).

(** ** A small deployment to run the gateway on *)

(** Whether a text holds a surrogate code point, which UTF-8 cannot
    encode. *)
Definition has_surrogate (s : str) : bool :=
  existsb (fun c => (55296 <=? c)%N && (c <=? 57343)%N) s.

(** Stand-ins for the digests: constant on the texts that can be encoded,
    [UnicodeEncodeError] on the others. *)
Definition demo_lib : Lib :=
  {| w3_keccak := fun code =>
       if has_surrogate code then Err UnicodeEncodeError
       else Ok [x12; x34];
     hexbytes_hex := fun _ => lit "0x1234";
     sha256_hexdigest := fun content =>
       if has_surrogate content then Err UnicodeEncodeError
       else Ok (lit "9f86d081884c7d659a2feaa0c55ad015a3bf4f1b");
     account_from_key := fun _ => Ok (lit "0xA11CE");
     account_sign_transaction := fun _ _ => Ok [xf8; x6b] |}.

Definition demo_cfg : Config :=
  {| PAWN_SHOP_ADDRESS := lit "0x8004";
     PINATA_API_KEY := lit "key";
     PINATA_SECRET := lit "secret" |}.

(** The world counts the requests it has answered. No pattern is listed,
    only alice holds a grant, pinning succeeds and retrieval is down. *)
Definition demo_ports : Ports nat :=
  {| call_getPattern := fun _ _ w =>
       (Ok {| p_ipfsUri := lit "ipfs://QmPattern"; p_seller := lit "0x0";
              p_price := 0; p_quality := 0; p_timesSold := 0;
              p_active := false |}, S w);
     call_hasAccess := fun _ buyer _ w =>
       (Ok (Py.str_eqb buyer (lit "alice")), S w);
     build_transaction := fun _ _ params w => (Ok params, S w);
     get_transaction_count := fun _ w => (Ok 0, S w);
     gas_price := fun w => (Ok 1, S w);
     send_raw_transaction := fun raw w => (Ok raw, S w);
     requests_post := fun _ _ _ _ w =>
       (Ok {| status_code := 200; text := lit "";
              json := Ok [(lit "IpfsHash", lit "QmDemo")] |}, S w);
     requests_get := fun _ w =>
       (Ok {| status_code := 404; text := lit "not found";
              json := Err ValueError |}, S w) |}.

Definition demo_st : St nat := {| world := O; trace := [] |}.

(** Sixty lone surrogates: a text no UTF-8 encoder accepts. *)
Definition text_surrogates : str := repeat 55296%N 60.

Definition surrogate_request : DepositRequest :=
  {| dr_code := text_surrogates; dr_language := lit "python";
     dr_private_key := None |}.

Definition short_request : DepositRequest :=
  {| dr_code := lit "x = 1"; dr_language := lit "python";
     dr_private_key := Some (lit "0xkey") |}.

Definition quote_request : DepositRequest :=
  {| dr_code := text60; dr_language := lit "python";
     dr_private_key := None |}.

Definition demo_purchase : PurchaseRequest :=
  {| pr_code_hash := lit "0x1234"; pr_private_key := lit "0xkey" |}.

(** ** The parts of [estimate_quality] by name *)

(** [lines], the count of newlines plus one. *)
Definition line_count (code : str) : Z := Z.of_nat (Py.count NL code) + 1.

(** The test of the structure check. *)
Definition has_structure (code : str) : bool :=
  Py.contains (lit "def ") code || Py.contains (lit "class ") code
  || Py.contains (lit "function ") code.

(** The test of the comments check. *)
Definition has_comments (code : str) : bool :=
  Py.contains (lit "#") code || Py.contains (lit "//") code
  || Py.contains [34; 34; 34]%N code.

(** [long_lines], the number of lines of more than 120 characters. *)
Definition long_lines (code : str) : Z :=
  Py.len (List.filter (fun line => 120 <? Py.len line) (Py.split NL code)).

(** ** Transaction dictionaries read back *)

(** [d.get(k)] *)
Fixpoint dict_get (k : str) (d : dict) : option (Z + str) :=
  match d with
  | [] => None
  | (k', v) :: d' => if Py.str_eqb k' k then Some v else dict_get k d'
  end.

(** The dictionary [sign_and_send] has built when it signs: the four
    assignments applied to the transaction it was given. *)
Definition tx_to_sign (account : str) (nonce price : Z) (tx : dict) : dict :=
  dict_set (lit "gasPrice") (inl price)
    (dict_set (lit "gas") (inl 300000)
       (dict_set (lit "nonce") (inl nonce)
          (dict_set (lit "from") (inr account) tx))).

(** ** [/api/pattern/{code_hash}] *)

Record PatternResponse : Type := {
  gp_code_hash : str;
  gp_ipfs_uri : str;
  gp_seller : str;
  gp_price : Z;
  gp_quality : Z;
  gp_times_sold : Z;
  gp_active : bool
}.

Section PatternView.
Context {World : Type}.
Variable cfg : Config.
Variable ports : Ports World.

Local Open Scope gateway_scope.

Definition get_pattern (code_hash : str) : M World PatternResponse :=
  code_hash_bytes <- lift (Py.fromhex (Py.replace (lit "0x") (lit "")
                                         code_hash)) ;;
  pawn_shop <- get_pawn_shop cfg ;;
  pattern <- port (EthCall pawn_shop (FnGetPattern code_hash_bytes))
                  (call_getPattern ports pawn_shop code_hash_bytes) ;;
  ret {| gp_code_hash := code_hash;
         gp_ipfs_uri := p_ipfsUri pattern;
         gp_seller := p_seller pattern;
         gp_price := p_price pattern;
         gp_quality := p_quality pattern;
         gp_times_sold := p_timesSold pattern;
         gp_active := p_active pattern |}.

End PatternView.

(** ** More sample data *)

(** A deployment without pinning credentials and without a contract. *)
Definition bare_cfg : Config :=
  {| PAWN_SHOP_ADDRESS := lit "";
     PINATA_API_KEY := lit "";
     PINATA_SECRET := lit "" |}.

(** Pinning credentials but no contract address. *)
Definition pin_only_cfg : Config :=
  {| PAWN_SHOP_ADDRESS := lit "";
     PINATA_API_KEY := lit "key";
     PINATA_SECRET := lit "secret" |}.

(** A listed, active pattern; the pinning service is down for uploads and
    serves the stored code on retrieval. *)
Definition live_ports : Ports nat :=
  {| call_getPattern := fun _ _ w =>
       (Ok {| p_ipfsUri := lit "ipfs://QmPattern"; p_seller := lit "0xB0B";
              p_price := 824; p_quality := 97; p_timesSold := 3;
              p_active := true |}, S w);
     call_hasAccess := fun _ _ _ w => (Ok true, S w);
     build_transaction := fun _ _ params w =>
       (Ok (params ++ [(lit "gas", inl 21000)]), S w);
     get_transaction_count := fun _ w => (Ok 7, S w);
     gas_price := fun w => (Ok 5, S w);
     send_raw_transaction := fun raw w => (Ok raw, S w);
     requests_post := fun _ _ _ _ w =>
       (Ok {| status_code := 503; text := lit "unavailable";
              json := Err ValueError |}, S w);
     requests_get := fun _ w =>
       (Ok {| status_code := 200; text := lit "";
              json := Ok [(lit "code", lit "def f(): pass")] |}, S w) |}.

(** As [live_ports], but retrieval answers 200 with an empty object. *)
Definition blank_ports : Ports nat :=
  {| call_getPattern := call_getPattern live_ports;
     call_hasAccess := call_hasAccess live_ports;
     build_transaction := build_transaction live_ports;
     get_transaction_count := get_transaction_count live_ports;
     gas_price := gas_price live_ports;
     send_raw_transaction := send_raw_transaction live_ports;
     requests_post := requests_post live_ports;
     requests_get := fun _ w =>
       (Ok {| status_code := 200; text := lit "{}"; json := Ok [] |}, S w) |}.

(** As [live_ports], but the nonce query fails. *)
Definition nonce_down_ports : Ports nat :=
  {| call_getPattern := call_getPattern live_ports;
     call_hasAccess := call_hasAccess live_ports;
     build_transaction := build_transaction live_ports;
     get_transaction_count := fun _ w =>
       (Err (LibraryError (lit "ConnectionError")), S w);
     gas_price := gas_price live_ports;
     send_raw_transaction := send_raw_transaction live_ports;
     requests_post := requests_post live_ports;
     requests_get := requests_get live_ports |}.

Definition commit_request : DepositRequest :=
  {| dr_code := text60; dr_language := lit "python";
     dr_private_key := Some (lit "0xkey") |}.

Definition built_tx : dict :=
  [(lit "chainId", inl CHAIN_ID); (lit "gas", inl 21000)].

(** * Properties *)

(** ** The builtins on small inputs *)

Example lit_0_85_is_nearest : PyFloat.truediv 85 100 = Ok PyFloat.lit_0_85.
Proof. vm_compute. reflexivity. Qed.

Example split_empty : Py.split NL (lit "") = [lit ""].
Proof. reflexivity. Qed.

Example split_two_lines :
  Py.split NL (lit "ab" ++ NL :: lit "c") = [lit "ab"; lit "c"].
Proof. reflexivity. Qed.

Example replace_0x : Py.replace (lit "0x") (lit "") (lit "0x12ab") = lit "12ab".
Proof. reflexivity. Qed.

Example fromhex_bytes : Py.fromhex (lit "12 aB") = Ok [x12; xab].
Proof. reflexivity. Qed.

Example fromhex_odd : Py.fromhex (lit "123") = Err ValueError.
Proof. reflexivity. Qed.

Example empty_text_scores_70 :
  sub_scores (lit "") = [50; 60; 70; 100] /\ estimate_quality (lit "") = Ok 70.
Proof. split; vm_compute; reflexivity. Qed.

(** ** Scoring *)

Lemma sub_scores_shape (t : str) :
  exists a b c d,
    sub_scores t = [a; b; c; d] /\
    (a = 100 \/ a = 50 \/ a = 70) /\
    (b = 100 \/ b = 60) /\
    (c = 90 \/ c = 70) /\
    (d = 100 \/ d = 80 \/ d = 50).
Proof.
  unfold sub_scores; cbv zeta.
  do 4 eexists; split; [simpl; reflexivity|].
  repeat split.
  - destruct ((10 <=? _) && _); [auto|]. destruct (_ <? 10); auto.
  - destruct (_ || _ || _); auto.
  - destruct (_ || _ || _); auto.
  - destruct (_ =? 0); [auto|]. destruct (_ <? 5); auto.
Qed.

Lemma no_long_line (ls : list str) :
  forallb (fun line => Py.len line <=? 120) ls = true ->
  List.filter (fun line => 120 <? Py.len line) ls = [].
Proof.
  induction ls as [|l ls IH]; simpl; [reflexivity|].
  intros H. apply andb_true_iff in H. destruct H as [Hl Hls].
  apply Z.leb_le in Hl.
  destruct (120 <? Py.len l) eqn:E; [apply Z.ltb_lt in E; lia|].
  now apply IH.
Qed.

Lemma sub_scores_scenario60 (t : str) :
  scenario60 t -> sub_scores t = [100; 100; 90; 100].
Proof.
  intros (Hl & Hs & Hc & Hw).
  unfold sub_scores; cbv zeta.
  rewrite Hl, Hs, Hc, (no_long_line _ Hw). reflexivity.
Qed.

(** The score is computed without an exception, it is the truncated average
    of the four sub-scores, and it lies between 57 and 97. *)
Lemma estimate_quality_spec (t : str) :
  exists avg i,
    PyFloat.truediv (Py.sum (sub_scores t)) (Py.len (sub_scores t)) = Ok avg /\
    PyFloat.to_int avg = Ok i /\
    i = Z.quot (Py.sum (sub_scores t)) (Py.len (sub_scores t)) /\
    57 <= i <= 97 /\
    estimate_quality t = Ok i.
Proof.
  unfold estimate_quality; cbv zeta.
  destruct (sub_scores_shape t) as (a & b & c & d & -> & Ha & Hb & Hc & Hd).
  destruct Ha as [-> | [-> | ->]]; destruct Hb as [-> | ->];
    destruct Hc as [-> | ->]; destruct Hd as [-> | [-> | ->]];
    (eexists; eexists;
     split; [vm_compute; reflexivity|];
     split; [vm_compute; reflexivity|];
     split; [vm_compute; reflexivity|];
     split; [lia|]; vm_compute; reflexivity).
Qed.

Lemma all_scores_In (q : Z) : 10 <= q <= 100 -> In q all_scores.
Proof.
  intros H. unfold all_scores.
  replace q with (Z.of_nat (Z.to_nat q)) by lia.
  apply in_map, in_seq. lia.
Qed.

Lemma pricing_check_all : forallb pricing_check all_scores = true.
Proof. vm_compute. reflexivity. Qed.

Lemma price_of_exact (q : Z) :
  10 <= q <= 100 ->
  price_of (credits_of q) = Ok (credits_of q * 85 / 100) /\
  credits_of q * 85 / 100 <= credits_of q.
Proof.
  intros H.
  pose proof (proj1 (forallb_forall _ _) pricing_check_all q
                (all_scores_In q H)) as Hq.
  unfold pricing_check in Hq.
  destruct (price_of (credits_of q)) as [p|e]; [|discriminate].
  apply andb_true_iff in Hq. destruct Hq as [Hp Hle].
  apply Z.eqb_eq in Hp. apply Z.leb_le in Hle. subst p. auto.
Qed.

(** C1: for every text the quality score is computed (no exception is
    raised, the empty text included), it is an integer between 10 and 100,
    and identical texts get identical scores. *)
Theorem score_total_in_range_deterministic :
  forall t : str,
    (exists q, estimate_quality t = Ok q /\ 10 <= q <= 100) /\
    (forall t' : str, t' = t -> estimate_quality t' = estimate_quality t).
Proof.
  intros t. split.
  - destruct (estimate_quality_spec t) as (avg & i & _ & _ & _ & Hi & He).
    exists i. split; [exact He | lia].
  - intros t' ->. reflexivity.
Qed.

Lemma score_total_in_range_deterministic_witness :
  (exists q, estimate_quality (lit "") = Ok q /\ 10 <= q <= 100) /\
  estimate_quality (lit "") = estimate_quality (lit "").
Proof.
  destruct (score_total_in_range_deterministic (lit "")) as [H1 H2].
  split; [exact H1 | exact (H2 (lit "") eq_refl)].
Defined.

(** C2, as stated, fails: on a text of sixty short lines with a keyword and
    a comment marker the sub-scores are 100, 100, 90, 100 and rounding half
    up would give 98, but the code returns 97, and the price of 970 credits
    is 824. *)
Lemma score_is_not_rounded_half_up :
  scenario60 text60 /\
  sub_scores text60 = [100; 100; 90; 100] /\
  round_half_up_score (sub_scores text60) = 98 /\
  estimate_quality text60 = Ok 97 /\
  estimate_quality text60 <> Ok 98 /\
  credits_of 97 = 970 /\
  price_of (credits_of 97) = Ok 824.
Proof.
  repeat split; try (vm_compute; reflexivity).
  vm_compute. discriminate.
Qed.

(** C2, amended: the final score is the average of the sub-scores truncated
    towards zero and clamped to 10..100; on every text of exactly sixty
    lines with a structure keyword, a comment marker and no line over 120
    characters, the sub-scores are 100, 100, 90, 100, the average is 97.5,
    the score is 97, the credits are 970 and the price is 824. [evaluate]
    answers with these figures when the text can be hashed, and raises the
    hash's exception otherwise. *)
Theorem score_truncates_the_average :
  (forall t : str, estimate_quality t = Ok (truncated_score (sub_scores t))) /\
  (forall (lib : Lib) (t language : str),
      scenario60 t ->
      sub_scores t = [100; 100; 90; 100] /\
      PyFloat.truediv (Py.sum (sub_scores t)) (Py.len (sub_scores t))
        = Ok f97_5 /\
      estimate_quality t = Ok 97 /\
      credits_of 97 = 970 /\
      price_of (credits_of 97) = Ok 824 /\
      (forall h : bytes,
          w3_keccak lib t = Ok h ->
          evaluate lib t language =
            Ok {| ev_code_hash := hexbytes_hex lib h;
                  ev_quality := 97;
                  ev_estimated_credits := 970;
                  ev_estimated_price := 824;
                  ev_recommendation := lit "deposit" |}) /\
      (forall e : exn,
          w3_keccak lib t = Err e -> evaluate lib t language = Err e)).
Proof.
  split.
  - intros t.
    destruct (estimate_quality_spec t) as (avg & i & _ & _ & Hq & Hi & ->).
    unfold truncated_score. rewrite <- Hq. f_equal. lia.
  - intros lib t language Hsc.
    pose proof (sub_scores_scenario60 t Hsc) as Hs.
    assert (He : estimate_quality t = Ok 97).
    { unfold estimate_quality; cbv zeta. rewrite Hs. vm_compute. reflexivity. }
    split; [exact Hs|].
    split; [rewrite Hs; vm_compute; reflexivity|].
    split; [exact He|].
    split; [reflexivity|].
    split; [vm_compute; reflexivity|].
    split.
    + intros h Hh. unfold evaluate, hash_code. rewrite He. cbn [rbind].
      change (price_of (credits_of 97)) with (Ok 824). cbn [rbind].
      rewrite Hh. reflexivity.
    + intros e Hh. unfold evaluate, hash_code. rewrite He. cbn [rbind].
      change (price_of (credits_of 97)) with (Ok 824). cbn [rbind].
      rewrite Hh. reflexivity.
Qed.

Lemma score_truncates_the_average_witness :
  scenario60 text60 /\
  estimate_quality text60 = Ok 97 /\
  evaluate demo_lib text60 (lit "python")
  = Ok {| ev_code_hash := lit "0x1234";
          ev_quality := 97;
          ev_estimated_credits := 970;
          ev_estimated_price := 824;
          ev_recommendation := lit "deposit" |}.
Proof.
  assert (H : scenario60 text60) by (repeat split; vm_compute; reflexivity).
  split; [exact H|].
  destruct (proj2 score_truncates_the_average demo_lib text60 (lit "python") H)
    as (_ & _ & He & _ & _ & Hev & _).
  split; [exact He|].
  exact (Hev [x12; x34] eq_refl).
Defined.

(** C3: for every quality between 10 and 100 the credits are ten times the
    quality, the price computed in floating point is exactly the floor of
    85 hundredths of the credits, and the price does not exceed the
    credits. *)
Theorem price_is_discounted_credits :
  forall q : Z,
    10 <= q <= 100 ->
    credits_of q = q * 10 /\
    exists p : Z,
      price_of (credits_of q) = Ok p /\
      p = (q * 10) * 85 / 100 /\
      p <= credits_of q.
Proof.
  intros q H. split; [reflexivity|].
  destruct (price_of_exact q H) as [Hp Hle].
  exists (credits_of q * 85 / 100). repeat split; assumption.
Qed.

Lemma price_is_discounted_credits_witness :
  credits_of 98 = 980 /\
  exists p : Z, price_of (credits_of 98) = Ok p /\ p = 833 /\ p <= 980.
Proof.
  assert (H : 10 <= 98 <= 100) by lia.
  exact (price_is_discounted_credits 98 H).
Defined.

(** C9: every score actually produced lies between 57 and 97. Each
    sub-score is at least 50, 60, 70, 50 and at most 100, 100, 90, 100; both
    extremes are reached, with averages 57.5 and 97.5 truncated to 57 and
    97; the clamp to 10..100 never changes the truncated average, and 100
    is never returned. *)
Theorem score_between_57_and_97 :
  (forall t : str,
      exists a b c d avg i,
        sub_scores t = [a; b; c; d] /\
        (50 <= a <= 100 /\ 60 <= b <= 100 /\ 70 <= c <= 90 /\ 50 <= d <= 100) /\
        PyFloat.truediv (Py.sum (sub_scores t)) (Py.len (sub_scores t))
          = Ok avg /\
        PyFloat.to_int avg = Ok i /\
        Z.max 10 (Z.min 100 i) = i /\
        estimate_quality t = Ok i /\
        57 <= i <= 97 /\
        estimate_quality t <> Ok 100) /\
  (sub_scores text_low = [50; 60; 70; 50] /\
   PyFloat.truediv (Py.sum (sub_scores text_low)) (Py.len (sub_scores text_low))
     = Ok f57_5 /\
   estimate_quality text_low = Ok 57) /\
  (sub_scores text60 = [100; 100; 90; 100] /\
   PyFloat.truediv (Py.sum (sub_scores text60)) (Py.len (sub_scores text60))
     = Ok f97_5 /\
   estimate_quality text60 = Ok 97).
Proof.
  split; [|repeat split; vm_compute; reflexivity].
  intros t.
  destruct (sub_scores_shape t) as (a & b & c & d & Hs & Ha & Hb & Hc & Hd).
  destruct (estimate_quality_spec t) as (avg & i & Havg & Hint & _ & Hi & He).
  exists a, b, c, d, avg, i.
  split; [exact Hs|].
  split; [lia|].
  split; [exact Havg|].
  split; [exact Hint|].
  split; [lia|].
  split; [exact He|].
  split; [exact Hi|].
  rewrite He. intros E. injection E as E. lia.
Qed.

(** C10: every answer [evaluate] gives reports a quality of at least 57, so
    the test [quality >= 50] succeeds and the recommendation is "deposit",
    never "improve_quality". [evaluate] answers on every text that can be
    hashed; on the others it raises the hash's exception and recommends
    nothing. *)
Theorem evaluate_recommends_deposit :
  forall (lib : Lib) (code language : str),
    (forall r : EvaluateResponse,
        evaluate lib code language = Ok r ->
        estimate_quality code = Ok (ev_quality r) /\
        57 <= ev_quality r /\
        (50 <=? ev_quality r) = true /\
        ev_recommendation r = lit "deposit" /\
        ev_recommendation r <> lit "improve_quality") /\
    (forall h : bytes,
        w3_keccak lib code = Ok h ->
        exists r : EvaluateResponse,
          evaluate lib code language = Ok r /\
          ev_code_hash r = hexbytes_hex lib h) /\
    (forall e : exn,
        w3_keccak lib code = Err e -> evaluate lib code language = Err e).
Proof.
  intros lib code language.
  destruct (estimate_quality_spec code) as (avg & i & _ & _ & _ & Hi & He).
  assert (Hq : 10 <= i <= 100) by lia.
  destruct (price_of_exact i Hq) as [Hp _].
  assert (H50 : (50 <=? i) = true) by (apply Z.leb_le; lia).
  unfold evaluate, hash_code. rewrite He. cbn [rbind]. rewrite Hp.
  cbn [rbind]. rewrite H50.
  destruct (w3_keccak lib code) as [h|e]; cbn [rbind].
  - split; [|split].
    + intros r E. injection E as <-. cbn.
      repeat split; try assumption; try lia.
      intros E. vm_compute in E. discriminate E.
    + intros h' E. injection E as <-. eexists. split; reflexivity.
    + intros e E. discriminate E.
  - split; [|split].
    + intros r E. discriminate E.
    + intros h E. discriminate E.
    + intros e' E. injection E as <-. reflexivity.
Qed.

Lemma evaluate_recommends_deposit_witness :
  exists r : EvaluateResponse,
    evaluate demo_lib text_low (lit "python") = Ok r /\
    ev_quality r = 57 /\
    ev_recommendation r = lit "deposit".
Proof.
  destruct (evaluate_recommends_deposit demo_lib text_low (lit "python"))
    as (Hans & Hok & _).
  destruct (Hok [x12; x34] eq_refl) as (r & Hr & _).
  destruct (Hans r Hr) as (Hq & _ & _ & Hrec & _).
  exists r. split; [exact Hr|]. split; [|exact Hrec].
  assert (E : estimate_quality text_low = Ok 57) by (vm_compute; reflexivity).
  rewrite E in Hq. injection Hq as <-. reflexivity.
Defined.

(** ** Gateway operations *)

(** A Store Port call is not a Ledger Port call, let alone a write. *)
Lemma store_events_are_not_ledger (evs : list Event) :
  forallb is_store evs = true ->
  forallb (fun ev => negb (is_ledger ev) && negb (is_ledger_write ev)) evs
    = true.
Proof.
  induction evs as [|ev evs IH]; [reflexivity|].
  cbn. intros H. apply andb_true_iff in H. destruct H as [Hev Hevs].
  rewrite (IH Hevs). unfold is_ledger. rewrite Hev.
  destruct ev; try discriminate; reflexivity.
Qed.

Section GatewayProperties.
Context {World : Type}.
Variable cfg : Config.
Variable lib : Lib.
Variable ports : Ports World.

(** Pinning calls the Store Port at most once and nothing else. *)
Lemma upload_to_ipfs_trace (content : str) (st : St World) :
  exists evs,
    trace (snd (upload_to_ipfs cfg lib ports content st)) = trace st ++ evs /\
    forallb is_store evs = true.
Proof.
  unfold upload_to_ipfs.
  destruct (PINATA_API_KEY cfg) as [|c key].
  - exists []. unfold bind, lift.
    destruct (sha256_hexdigest lib content); cbn; now rewrite app_nil_r.
  - unfold bind, port.
    destruct (requests_post ports _ content (c :: key) (PINATA_SECRET cfg)
                (world st)) as [[r|e] w'].
    + exists [RequestsPost
                (lit "https://api.pinata.cloud/pinning/pinJSONToIPFS")
                content].
      split; [|reflexivity].
      destruct (status_code r =? 200); cbn; [|reflexivity].
      unfold lift. destruct (json r) as [body|e]; [|reflexivity].
      destruct (lookup _ body); reflexivity.
    + eexists [_]. split; reflexivity.
Qed.

(** C4: a deposit of fewer than 50 characters raises the 400 error and
    leaves the world and the trace as they were: neither the Store Port
    nor the Ledger Port has been called. *)
Theorem deposit_too_short_is_rejected :
  forall (req : DepositRequest) (st : St World),
    Py.len (dr_code req) < 50 ->
    deposit cfg lib ports req st
    = (Err (HTTPException 400 (lit "Code too short (min 50 chars)")), st).
Proof.
  intros req st H. unfold deposit.
  apply Z.ltb_lt in H. rewrite H. reflexivity.
Qed.

(** C5: when the ledger's answer to [getPattern] is a pattern that is not
    active (an unlisted hash is answered so), [purchase] raises the 404
    error; the read is the only call made, so no transaction is built,
    signed or sent. *)
Theorem purchase_inactive_is_not_found :
  forall (req : PurchaseRequest) (st : St World) (h : bytes)
         (pattern : Pattern) (w' : World),
    Py.fromhex (Py.replace (lit "0x") (lit "") (pr_code_hash req)) = Ok h ->
    PAWN_SHOP_ADDRESS cfg <> [] ->
    call_getPattern ports (PAWN_SHOP_ADDRESS cfg) h (world st)
      = (Ok pattern, w') ->
    p_active pattern = false ->
    exists evs,
      purchase cfg lib ports req st
      = (Err (HTTPException 404 (lit "Pattern not found or inactive")),
         {| world := w'; trace := trace st ++ evs |}) /\
      evs = [EthCall (PAWN_SHOP_ADDRESS cfg) (FnGetPattern h)] /\
      forallb (fun ev => negb (is_ledger_write ev)) evs = true.
Proof.
  intros req st h pattern w' Hhex Hcfg Hcall Hact.
  eexists. split; [|split; [reflexivity|reflexivity]].
  unfold purchase, bind, lift. rewrite Hhex.
  unfold get_pawn_shop.
  destruct (PAWN_SHOP_ADDRESS cfg) as [|c a]; [congruence|].
  unfold ret, port. rewrite Hcall, Hact. reflexivity.
Qed.

(** C6: when the ledger reports no grant, [check_access] returns
    has_access false with no code; the grant query is the only call
    made, so the Store Port is not invoked. *)
Theorem check_access_without_grant :
  forall (buyer code_hash : str) (st : St World) (h : bytes) (w' : World),
    Py.fromhex (Py.replace (lit "0x") (lit "") code_hash) = Ok h ->
    PAWN_SHOP_ADDRESS cfg <> [] ->
    call_hasAccess ports (PAWN_SHOP_ADDRESS cfg) buyer h (world st)
      = (Ok false, w') ->
    exists evs,
      check_access cfg ports buyer code_hash st
      = (Ok {| ac_has_access := false; ac_ipfs_uri := None;
               ac_code := None |},
         {| world := w'; trace := trace st ++ evs |}) /\
      evs = [EthCall (PAWN_SHOP_ADDRESS cfg) (FnHasAccess buyer h)] /\
      forallb (fun ev => negb (is_store ev)) evs = true.
Proof.
  intros buyer code_hash st h w' Hhex Hcfg Hcall.
  eexists. split; [|split; [reflexivity|reflexivity]].
  unfold check_access, bind, lift. rewrite Hhex.
  unfold get_pawn_shop.
  destruct (PAWN_SHOP_ADDRESS cfg) as [|c a]; [congruence|].
  unfold ret, port. rewrite Hcall. reflexivity.
Qed.

(** C7: when the ledger reports a grant and answers [getPattern], and
    fetching the pattern's URI raises (whatever the exception),
    [check_access] raises nothing: it returns has_access true, the URI,
    and no code. *)
Theorem check_access_swallows_store_failure :
  forall (buyer code_hash : str) (st : St World) (h : bytes)
         (w1 w2 : World) (pattern : Pattern) (e : exn) (st3 : St World),
    Py.fromhex (Py.replace (lit "0x") (lit "") code_hash) = Ok h ->
    PAWN_SHOP_ADDRESS cfg <> [] ->
    call_hasAccess ports (PAWN_SHOP_ADDRESS cfg) buyer h (world st)
      = (Ok true, w1) ->
    call_getPattern ports (PAWN_SHOP_ADDRESS cfg) h w1 = (Ok pattern, w2) ->
    fetch_from_ipfs ports (p_ipfsUri pattern)
      {| world := w2;
         trace := (trace st
                     ++ [EthCall (PAWN_SHOP_ADDRESS cfg) (FnHasAccess buyer h)])
                    ++ [EthCall (PAWN_SHOP_ADDRESS cfg) (FnGetPattern h)] |}
      = (Err e, st3) ->
    check_access cfg ports buyer code_hash st
    = (Ok {| ac_has_access := true;
             ac_ipfs_uri := Some (p_ipfsUri pattern);
             ac_code := None |}, st3).
Proof.
  intros buyer code_hash st h w1 w2 pattern e st3 Hhex Hcfg Hacc Hpat Hfetch.
  unfold check_access, bind, lift. rewrite Hhex.
  unfold get_pawn_shop.
  destruct (PAWN_SHOP_ADDRESS cfg) as [|c a]; [congruence|].
  unfold ret, port, try_except, bind. rewrite Hacc. cbn.
  rewrite Hpat. cbn. rewrite Hfetch. reflexivity.
Qed.

(** C8: a deposit without a signing key never reaches the Ledger Port: the
    calls it makes are Store Port calls only, so no transaction is built,
    signed or sent. Whenever it answers, the answer is the unsigned record:
    the hash of the text, the URI the Store Port returned, the quality,
    ten times the quality as credits, and the proposed call of the
    contract's deposit function. It does answer when the text has 50
    characters or more, can be hashed, and the upload succeeds; when the
    text cannot be hashed it raises the hash's exception before any
    call. *)
Theorem deposit_quote_makes_no_ledger_call :
  forall (req : DepositRequest) (st : St World),
    falsy (dr_private_key req) = true ->
    exists evs,
      trace (snd (deposit cfg lib ports req st)) = trace st ++ evs /\
      forallb (fun ev => negb (is_ledger ev) && negb (is_ledger_write ev)) evs
        = true /\
      (forall resp,
          fst (deposit cfg lib ports req st) = Ok resp ->
          exists code_hash ipfs_uri quality,
            estimate_quality (dr_code req) = Ok quality /\
            hash_code lib (dr_code req) = Ok code_hash /\
            fst (upload_to_ipfs cfg lib ports (dr_code req) st) = Ok ipfs_uri /\
            resp = Unsigned
                     (hexbytes_hex lib code_hash)
                     ipfs_uri quality (quality * 10)
                     {| td_to := PAWN_SHOP_ADDRESS cfg;
                        td_function := lit "deposit";
                        td_args :=
                          (hexbytes_hex lib code_hash, ipfs_uri, quality) |}
                     (lit "Sign and submit this transaction to deposit")) /\
      (50 <= Py.len (dr_code req) ->
       forall code_hash ipfs_uri st1,
         hash_code lib (dr_code req) = Ok code_hash ->
         upload_to_ipfs cfg lib ports (dr_code req) st = (Ok ipfs_uri, st1) ->
         exists resp, deposit cfg lib ports req st = (Ok resp, st1)) /\
      (50 <= Py.len (dr_code req) ->
       forall e,
         hash_code lib (dr_code req) = Err e ->
         deposit cfg lib ports req st = (Err e, st)).
Proof.
  intros req st Hkey. unfold deposit.
  destruct (Py.len (dr_code req) <? 50) eqn:Hlen.
  - exists []. cbn. rewrite app_nil_r.
    apply Z.ltb_lt in Hlen.
    repeat split; try discriminate; intros; lia.
  - destruct (estimate_quality_spec (dr_code req))
      as (avg & q & _ & _ & _ & _ & Hq).
    unfold bind, lift. rewrite Hq.
    destruct (hash_code lib (dr_code req)) as [h|eh] eqn:Hh.
    2:{ exists []. cbn. rewrite app_nil_r.
        repeat split; try discriminate.
        intros _ e E. injection E as <-. reflexivity. }
    destruct (upload_to_ipfs_trace (dr_code req) st) as (evs & Htr & Hst).
    exists evs.
    destruct (upload_to_ipfs cfg lib ports (dr_code req) st)
      as [[uri|e] st1] eqn:Hup; rewrite ?Hkey; cbn in *.
    + split; [exact Htr|]. split.
      * exact (store_events_are_not_ledger evs Hst).
      * split; [|split].
        -- intros resp E. injection E as <-. exists h, uri, q. auto.
        -- intros _ h' uri' st' _ E. injection E as <- <-.
           eexists. reflexivity.
        -- intros _ e E. discriminate E.
    + split; [exact Htr|]. split.
      * exact (store_events_are_not_ledger evs Hst).
      * split; [discriminate|]. split.
        -- intros _ h' uri' st' _ E. discriminate E.
        -- intros _ e' E. discriminate E.
Qed.

End GatewayProperties.

(** ** The properties on the sample deployment *)

Lemma deposit_too_short_is_rejected_witness :
  Py.len (dr_code short_request) < 50 /\
  deposit demo_cfg demo_lib demo_ports short_request demo_st
  = (Err (HTTPException 400 (lit "Code too short (min 50 chars)")), demo_st).
Proof.
  assert (H : Py.len (dr_code short_request) < 50) by (vm_compute; reflexivity).
  split; [exact H|].
  exact (deposit_too_short_is_rejected demo_cfg demo_lib demo_ports
           short_request demo_st H).
Defined.

Lemma purchase_inactive_is_not_found_witness :
  Py.fromhex (Py.replace (lit "0x") (lit "") (pr_code_hash demo_purchase))
    = Ok [x12; x34] /\
  exists evs,
    purchase demo_cfg demo_lib demo_ports demo_purchase demo_st
    = (Err (HTTPException 404 (lit "Pattern not found or inactive")),
       {| world := 1%nat; trace := trace demo_st ++ evs |}) /\
    evs = [EthCall (lit "0x8004") (FnGetPattern [x12; x34])] /\
    forallb (fun ev => negb (is_ledger_write ev)) evs = true.
Proof.
  assert (Hhex : Py.fromhex (Py.replace (lit "0x") (lit "")
                               (pr_code_hash demo_purchase))
                 = Ok [x12; x34]) by (vm_compute; reflexivity).
  assert (Hcfg : PAWN_SHOP_ADDRESS demo_cfg <> [])
    by (vm_compute; discriminate).
  split; [exact Hhex|].
  exact (purchase_inactive_is_not_found demo_cfg demo_lib demo_ports
           demo_purchase demo_st [x12; x34] _ 1%nat Hhex Hcfg eq_refl eq_refl).
Defined.

Lemma check_access_without_grant_witness :
  call_hasAccess demo_ports (PAWN_SHOP_ADDRESS demo_cfg) (lit "bob")
    [x12; x34] (world demo_st) = (Ok false, 1%nat) /\
  exists evs,
    check_access demo_cfg demo_ports (lit "bob") (lit "0x1234") demo_st
    = (Ok {| ac_has_access := false; ac_ipfs_uri := None; ac_code := None |},
       {| world := 1%nat; trace := trace demo_st ++ evs |}) /\
    evs = [EthCall (lit "0x8004") (FnHasAccess (lit "bob") [x12; x34])] /\
    forallb (fun ev => negb (is_store ev)) evs = true.
Proof.
  assert (Hhex : Py.fromhex (Py.replace (lit "0x") (lit "") (lit "0x1234"))
                 = Ok [x12; x34]) by (vm_compute; reflexivity).
  assert (Hcfg : PAWN_SHOP_ADDRESS demo_cfg <> [])
    by (vm_compute; discriminate).
  assert (Hacc : call_hasAccess demo_ports (PAWN_SHOP_ADDRESS demo_cfg)
                   (lit "bob") [x12; x34] (world demo_st) = (Ok false, 1%nat))
    by (vm_compute; reflexivity).
  split; [exact Hacc|].
  exact (check_access_without_grant demo_cfg demo_ports (lit "bob")
           (lit "0x1234") demo_st [x12; x34] 1%nat Hhex Hcfg Hacc).
Defined.

Lemma check_access_swallows_store_failure_witness :
  (exists e st3,
      fetch_from_ipfs demo_ports (lit "ipfs://QmPattern")
        {| world := 2%nat;
           trace := [EthCall (lit "0x8004")
                       (FnHasAccess (lit "alice") [x12; x34]);
                     EthCall (lit "0x8004") (FnGetPattern [x12; x34])] |}
      = (Err e, st3)) /\
  fst (check_access demo_cfg demo_ports (lit "alice") (lit "0x1234") demo_st)
  = Ok {| ac_has_access := true;
          ac_ipfs_uri := Some (lit "ipfs://QmPattern");
          ac_code := None |}.
Proof.
  assert (Hhex : Py.fromhex (Py.replace (lit "0x") (lit "") (lit "0x1234"))
                 = Ok [x12; x34]) by (vm_compute; reflexivity).
  assert (Hcfg : PAWN_SHOP_ADDRESS demo_cfg <> [])
    by (vm_compute; discriminate).
  split.
  - do 2 eexists. vm_compute. reflexivity.
  - rewrite (check_access_swallows_store_failure demo_cfg demo_ports
               (lit "alice") (lit "0x1234") demo_st [x12; x34] 1%nat 2%nat
               _ (HTTPException 404 (lit "IPFS content not found"))
               (snd (fetch_from_ipfs demo_ports (lit "ipfs://QmPattern")
                       {| world := 2%nat;
                          trace := [EthCall (lit "0x8004")
                                      (FnHasAccess (lit "alice") [x12; x34]);
                                    EthCall (lit "0x8004")
                                      (FnGetPattern [x12; x34])] |}))
               Hhex Hcfg eq_refl eq_refl eq_refl).
    reflexivity.
Defined.

Lemma deposit_quote_makes_no_ledger_call_witness :
  falsy (dr_private_key quote_request) = true /\
  exists evs,
    trace (snd (deposit demo_cfg demo_lib demo_ports quote_request demo_st))
    = trace demo_st ++ evs /\
    forallb (fun ev => negb (is_ledger ev) && negb (is_ledger_write ev)) evs
    = true /\
    exists resp,
      fst (deposit demo_cfg demo_lib demo_ports quote_request demo_st) = Ok resp.
Proof.
  assert (H : falsy (dr_private_key quote_request) = true) by reflexivity.
  split; [exact H|].
  destruct (deposit_quote_makes_no_ledger_call demo_cfg demo_lib demo_ports
              quote_request demo_st H) as (evs & Htr & Hno & _ & Hok & _).
  exists evs. split; [exact Htr|]. split; [exact Hno|].
  assert (Hlen : 50 <= Py.len (dr_code quote_request))
    by (vm_compute; discriminate).
  destruct (Hok Hlen [x12; x34] (lit "ipfs://QmDemo")
              (snd (upload_to_ipfs demo_cfg demo_lib demo_ports
                      (dr_code quote_request) demo_st)))
    as [resp Hresp]; [vm_compute; reflexivity | vm_compute; reflexivity |].
  exists resp. rewrite Hresp. reflexivity.
Defined.

(** * Further properties of the code *)

(** ** Scoring by its parts *)

Lemma sub_scores_by_parts (t : str) :
  sub_scores t
  = [ (if (10 <=? line_count t) && (line_count t <=? 500) then 100
       else if line_count t <? 10 then 50 else 70);
      (if has_structure t then 100 else 60);
      (if has_comments t then 90 else 70);
      (if long_lines t =? 0 then 100
       else if long_lines t <? 5 then 80 else 50) ].
Proof. reflexivity. Qed.

Lemma split_length (c : N) (s : str) :
  List.length (Py.split c s) = S (Py.count c s).
Proof.
  induction s as [|x s IH]; [reflexivity|].
  cbn. destruct (N.eqb x c); cbn.
  - now rewrite IH.
  - destruct (Py.split c s) as [|l ls]; [discriminate IH | exact IH].
Qed.

Lemma long_lines_le_line_count (t : str) : 0 <= long_lines t <= line_count t.
Proof.
  pose proof (filter_length_le (fun line => 120 <? Py.len line)
                (Py.split NL t)) as H.
  rewrite split_length in H.
  unfold long_lines, line_count, Py.len in *. lia.
Qed.

(** X1: the two ends of the scale are reached on exactly one combination of
    bands each: 97 when the text has 10 to 500 lines, a structure keyword, a
    comment marker and no line over 120 characters; 57 when it has fewer
    than 10 lines, no keyword, no marker and at least five long lines. *)
Theorem extreme_scores_characterised :
  forall t : str,
    (estimate_quality t = Ok 97 <->
     10 <= line_count t <= 500 /\ has_structure t = true /\
     has_comments t = true /\ long_lines t = 0) /\
    (estimate_quality t = Ok 57 <->
     line_count t < 10 /\ has_structure t = false /\
     has_comments t = false /\ 5 <= long_lines t).
Proof.
  intros t. unfold estimate_quality; cbv zeta. rewrite sub_scores_by_parts.
  destruct (Z.leb_spec 10 (line_count t)), (Z.leb_spec (line_count t) 500),
    (Z.ltb_spec (line_count t) 10), (has_structure t), (has_comments t),
    (Z.eqb_spec (long_lines t) 0), (Z.ltb_spec (long_lines t) 5);
    cbn [andb];
    (split;
     (split;
      [ intros Hq; vm_compute in Hq; try discriminate Hq;
        repeat split; try reflexivity; lia
      | intros (Hl & Hs & Hc & Hw); try discriminate; try lia;
        vm_compute; reflexivity ])).
Qed.

(** X2: the long lines are counted among the lines, so a short text cannot
    reach the lowest line-width band: a text of fewer than 10 lines scores
    at most 85, and one of fewer than 5 lines scores at least 65. *)
Theorem short_texts_score_between_65_and_85 :
  forall t : str,
    0 <= long_lines t <= line_count t /\
    (line_count t < 10 ->
     exists q, estimate_quality t = Ok q /\ q <= 85) /\
    (line_count t < 5 ->
     exists q, estimate_quality t = Ok q /\ 65 <= q <= 85).
Proof.
  intros t. pose proof (long_lines_le_line_count t) as Hll.
  split; [exact Hll|].
  unfold estimate_quality; cbv zeta. rewrite sub_scores_by_parts.
  split; intros Hlt;
    destruct (Z.leb_spec 10 (line_count t)), (Z.leb_spec (line_count t) 500),
      (Z.ltb_spec (line_count t) 10), (has_structure t), (has_comments t),
      (Z.eqb_spec (long_lines t) 0), (Z.ltb_spec (long_lines t) 5);
    cbn [andb]; try lia;
    (eexists; split; [vm_compute; reflexivity | lia]).
Qed.

Lemma short_texts_score_between_65_and_85_witness :
  line_count (lit "x = 1") < 5 /\
  exists q, estimate_quality (lit "x = 1") = Ok q /\ 65 <= q <= 85.
Proof.
  assert (H : line_count (lit "x = 1") < 5) by (vm_compute; reflexivity).
  split; [exact H|].
  exact (proj2 (proj2 (short_texts_score_between_65_and_85 (lit "x = 1"))) H).
Defined.

(** ** Pricing *)

(** X3: between 10 and 100 a higher quality always gets a strictly higher
    price, and each price is strictly below its credits. *)
Theorem price_strictly_increasing :
  forall q1 q2 : Z,
    10 <= q1 -> q1 < q2 -> q2 <= 100 ->
    exists p1 p2 : Z,
      price_of (credits_of q1) = Ok p1 /\
      price_of (credits_of q2) = Ok p2 /\
      p1 < p2 /\
      p1 < credits_of q1 /\
      p2 < credits_of q2.
Proof.
  intros q1 q2 H1 H12 H2.
  destruct (price_of_exact q1 ltac:(lia)) as [Hp1 _].
  destruct (price_of_exact q2 ltac:(lia)) as [Hp2 _].
  exists (credits_of q1 * 85 / 100), (credits_of q2 * 85 / 100).
  split; [exact Hp1|]. split; [exact Hp2|].
  unfold credits_of.
  pose proof (Z.div_mod (q1 * 10 * 85) 100 ltac:(lia)).
  pose proof (Z.div_mod (q2 * 10 * 85) 100 ltac:(lia)).
  pose proof (Z.mod_pos_bound (q1 * 10 * 85) 100 ltac:(lia)).
  pose proof (Z.mod_pos_bound (q2 * 10 * 85) 100 ltac:(lia)).
  repeat split; lia.
Qed.

Lemma price_strictly_increasing_witness :
  exists p1 p2 : Z,
    price_of (credits_of 10) = Ok p1 /\
    price_of (credits_of 11) = Ok p2 /\
    p1 < p2 /\
    p1 < credits_of 10 /\
    p2 < credits_of 11.
Proof.
  assert (H1 : 10 <= 10) by lia.
  assert (H12 : 10 < 11) by lia.
  assert (H2 : 11 <= 100) by lia.
  exact (price_strictly_increasing 10 11 H1 H12 H2).
Defined.

(** ** Strings and dictionaries *)

Lemma str_eqb_eq (a b : str) : Py.str_eqb a b = true <-> a = b.
Proof.
  revert b. induction a as [|x a IH]; intros [|y b]; cbn;
    try (split; [discriminate | discriminate]); [tauto|].
  rewrite andb_true_iff, N.eqb_eq, IH. split.
  - intros [-> ->]. reflexivity.
  - intros E. injection E as -> ->. auto.
Qed.

Lemma str_eqb_refl (a : str) : Py.str_eqb a a = true.
Proof. now apply str_eqb_eq. Qed.

Lemma dict_get_set_same (k : str) (v : Z + str) (d : dict) :
  dict_get k (dict_set k v d) = Some v.
Proof.
  induction d as [|[k' v'] d IH]; cbn.
  - now rewrite str_eqb_refl.
  - destruct (Py.str_eqb k' k) eqn:E; cbn.
    + now rewrite str_eqb_refl.
    + now rewrite E.
Qed.

Lemma dict_get_set_other (k k0 : str) (v : Z + str) (d : dict) :
  k0 <> k -> dict_get k0 (dict_set k v d) = dict_get k0 d.
Proof.
  intros Hne. induction d as [|[k' v'] d IH]; cbn.
  - destruct (Py.str_eqb k k0) eqn:E; [|reflexivity].
    apply str_eqb_eq in E. congruence.
  - destruct (Py.str_eqb k' k) eqn:E; cbn.
    + apply str_eqb_eq in E. subst k'.
      destruct (Py.str_eqb k k0) eqn:E0; [|reflexivity].
      apply str_eqb_eq in E0. congruence.
    + now rewrite IH.
Qed.

Lemma startswith_app (p s : str) : Py.startswith p (p ++ s) = true.
Proof.
  induction p as [|x p IH]; cbn; [reflexivity|].
  now rewrite N.eqb_refl, IH.
Qed.

Lemma replace_from_skip (old new pre s : str) :
  Py.replace_from old new (List.length pre) (pre ++ s)
  = Py.replace_from old new O s.
Proof.
  induction pre as [|x pre IH]; cbn; [reflexivity|exact IH].
Qed.

Lemma replace_prefix (old new s : str) :
  old <> [] -> Py.replace old new (old ++ s) = new ++ Py.replace old new s.
Proof.
  intros Hne. destruct old as [|x old]; [congruence|].
  unfold Py.replace.
  change ((x :: old) ++ s) with (x :: (old ++ s)).
  change (Py.replace_from (x :: old) new O (x :: (old ++ s)))
    with (if Py.startswith (x :: old) (x :: (old ++ s))
          then new ++ Py.replace_from (x :: old) new
                        (Nat.pred (List.length (x :: old))) (old ++ s)
          else x :: Py.replace_from (x :: old) new O (old ++ s)).
  change (x :: (old ++ s)) with ((x :: old) ++ s) at 1.
  rewrite startswith_app. cbn [List.length Nat.pred].
  now rewrite replace_from_skip.
Qed.

Lemma replace_absent (old new s : str) :
  Py.contains old s = false -> Py.replace old new s = s.
Proof.
  unfold Py.replace. induction s as [|x s IH]; [reflexivity|].
  intros H.
  change (Py.contains old (x :: s))
    with (Py.startswith old (x :: s) || Py.contains old s) in H.
  apply orb_false_iff in H. destruct H as [Hs Hc].
  change (Py.replace_from old new O (x :: s))
    with (if Py.startswith old (x :: s)
          then new ++ Py.replace_from old new
                        (Nat.pred (List.length old)) s
          else x :: Py.replace_from old new O s).
  rewrite Hs, (IH Hc). reflexivity.
Qed.

Lemma fromhex_error (s : str) (e : exn) :
  Py.fromhex s = Err e -> e = ValueError.
Proof.
  revert e.
  induction s as [s IH] using (well_founded_induction
                                 (Wf_nat.well_founded_ltof _ (@List.length N))).
  intros e. destruct s as [|c rest]; cbn; [discriminate|].
  destruct (Py.is_space c).
  - apply IH. unfold Wf_nat.ltof. cbn. lia.
  - destruct (Py.hex_digit c); [|congruence].
    destruct rest as [|d rest']; [congruence|].
    destruct (Py.hex_digit d); [|congruence].
    destruct (Byte.of_N _); [|congruence].
    destruct (Py.fromhex rest') eqn:E; cbn; [discriminate|].
    intros H. injection H as <-.
    apply (IH rest'); [unfold Wf_nat.ltof; cbn; lia | exact E].
Qed.

(** ** Signing and sending *)

Section SigningProperties.
Context {World : Type}.
Variable lib : Lib.
Variable ports : Ports World.

(** Whatever happens, [sign_and_send] talks to the ledger only. *)
Lemma sign_and_send_only_ledger (tx : dict) (key : str) (st : St World) :
  exists evs,
    trace (snd (sign_and_send lib ports tx key st)) = trace st ++ evs /\
    forallb is_ledger evs = true.
Proof.
  unfold sign_and_send, bind, lift, port, ret.
  destruct (account_from_key lib key) as [account|e]; cbn;
    [|exists []; now rewrite app_nil_r].
  destruct (get_transaction_count ports account (world st))
    as [[nonce|e] w1]; cbn; [|eexists [_]; split; reflexivity].
  destruct (gas_price ports w1) as [[price|e] w2]; cbn;
    [|eexists [_; _]; rewrite <- !app_assoc; split; reflexivity].
  destruct (account_sign_transaction lib key _) as [raw|e]; cbn;
    [|eexists [_; _; _]; rewrite <- !app_assoc; split; reflexivity].
  destruct (send_raw_transaction ports raw w2) as [[h|e] w3]; cbn;
    eexists [_; _; _; _]; rewrite <- !app_assoc; split; reflexivity.
Qed.

(** X4: [sign_and_send] makes its calls in one order: the nonce query, the gas
    price query, the signature of the transaction with the four
    assignments applied, the send. It stops at the first step that raises:
    it raises that step's exception and has made the calls up to that step
    and no other. It returns a transaction hash only after all four. *)
Theorem sign_and_send_calls_in_order :
  forall (tx : dict) (key : str) (st : St World),
    (exists evs rest account nonce price raw,
        trace (snd (sign_and_send lib ports tx key st)) = trace st ++ evs /\
        evs ++ rest
        = [GetTransactionCount account; GasPrice;
           SignTransaction (tx_to_sign account nonce price tx);
           SendRawTransaction raw] /\
        (forall h, fst (sign_and_send lib ports tx key st) = Ok h ->
                   rest = [])) /\
    (forall e,
        account_from_key lib key = Err e ->
        sign_and_send lib ports tx key st = (Err e, st)) /\
    (forall account,
        account_from_key lib key = Ok account ->
        (forall e w1,
            get_transaction_count ports account (world st) = (Err e, w1) ->
            sign_and_send lib ports tx key st
            = (Err e,
               {| world := w1;
                  trace := trace st ++ [GetTransactionCount account] |})) /\
        (forall nonce w1,
            get_transaction_count ports account (world st) = (Ok nonce, w1) ->
            (forall e w2,
                gas_price ports w1 = (Err e, w2) ->
                sign_and_send lib ports tx key st
                = (Err e,
                   {| world := w2;
                      trace := trace st
                                 ++ [GetTransactionCount account; GasPrice]
                   |})) /\
            (forall price w2,
                gas_price ports w1 = (Ok price, w2) ->
                let signed := tx_to_sign account nonce price tx in
                let before_send :=
                  trace st ++ [GetTransactionCount account; GasPrice;
                               SignTransaction signed] in
                (forall e,
                    account_sign_transaction lib key signed = Err e ->
                    sign_and_send lib ports tx key st
                    = (Err e, {| world := w2; trace := before_send |})) /\
                (forall raw,
                    account_sign_transaction lib key signed = Ok raw ->
                    (forall e w3,
                        send_raw_transaction ports raw w2 = (Err e, w3) ->
                        sign_and_send lib ports tx key st
                        = (Err e,
                           {| world := w3;
                              trace := before_send
                                         ++ [SendRawTransaction raw] |})) /\
                    (forall h w3,
                        send_raw_transaction ports raw w2 = (Ok h, w3) ->
                        sign_and_send lib ports tx key st
                        = (Ok (hexbytes_hex lib h),
                           {| world := w3;
                              trace := before_send
                                         ++ [SendRawTransaction raw] |})))))).
Proof.
  intros tx key st. split.
  { unfold sign_and_send, bind, lift, port, ret.
    destruct (account_from_key lib key) as [account|e]; cbn.
    2:{ exists [], [GetTransactionCount []; GasPrice;
                    SignTransaction (tx_to_sign [] 0 0 tx);
                    SendRawTransaction []], [], 0, 0, [].
        rewrite app_nil_r. repeat split. discriminate. }
    destruct (get_transaction_count ports account (world st))
      as [[nonce|e] w1]; cbn.
    2:{ exists [GetTransactionCount account],
          [GasPrice; SignTransaction (tx_to_sign account 0 0 tx);
           SendRawTransaction []], account, 0, 0, [].
        repeat split. discriminate. }
    destruct (gas_price ports w1) as [[price|e] w2]; cbn.
    2:{ exists [GetTransactionCount account; GasPrice],
          [SignTransaction (tx_to_sign account nonce 0 tx);
           SendRawTransaction []], account, nonce, 0, [].
        rewrite <- !app_assoc. repeat split. discriminate. }
    destruct (account_sign_transaction lib key _) as [raw|e]; cbn.
    2:{ exists [GetTransactionCount account; GasPrice;
                SignTransaction (tx_to_sign account nonce price tx)],
          [SendRawTransaction []], account, nonce, price, [].
        rewrite <- !app_assoc. repeat split. discriminate. }
    exists [GetTransactionCount account; GasPrice;
            SignTransaction (tx_to_sign account nonce price tx);
            SendRawTransaction raw], [], account, nonce, price, raw.
    destruct (send_raw_transaction ports raw w2) as [[h|e] w3]; cbn;
      rewrite <- !app_assoc; repeat split. }
  split.
  { intros e He. unfold sign_and_send, bind, lift. rewrite He. reflexivity. }
  intros account Hacc. split.
  { intros e w1 Hn. unfold sign_and_send, bind, lift, port.
    rewrite Hacc. cbv zeta. rewrite Hn. reflexivity. }
  intros nonce w1 Hn. split.
  { intros e w2 Hg. unfold sign_and_send, bind, lift, port.
    rewrite Hacc. cbv zeta. rewrite Hn. cbn [world trace]. rewrite Hg.
    rewrite <- app_assoc. reflexivity. }
  intros price w2 Hg signed before_send. subst before_send.
  split.
  { intros e Hs. unfold sign_and_send, bind, lift, port.
    rewrite Hacc. cbv zeta. rewrite Hn. cbn [world trace]. rewrite Hg.
    cbn [world trace]. fold (tx_to_sign account nonce price tx).
    fold signed. rewrite Hs. rewrite <- !app_assoc. reflexivity. }
  intros raw Hs. split.
  { intros e w3 Hsend. unfold sign_and_send, bind, lift, port.
    rewrite Hacc. cbv zeta. rewrite Hn. cbn [world trace]. rewrite Hg.
    cbn [world trace]. fold (tx_to_sign account nonce price tx).
    fold signed. rewrite Hs. cbn [world trace]. rewrite Hsend.
    rewrite <- !app_assoc. reflexivity. }
  { intros h w3 Hsend. unfold sign_and_send, bind, lift, port, ret.
    rewrite Hacc. cbv zeta. rewrite Hn. cbn [world trace]. rewrite Hg.
    cbn [world trace]. fold (tx_to_sign account nonce price tx).
    fold signed. rewrite Hs. cbn [world trace]. rewrite Hsend.
    rewrite <- !app_assoc. reflexivity. }
Qed.

(** X5: the transaction that is signed carries the sender, the nonce the
    ledger gave, a gas limit of 300000 and the ledger's gas price, whatever
    [build_transaction] had put under those keys; every other key is as
    built. *)
Theorem signed_transaction_fields :
  forall (tx : dict) (key : str) (st : St World)
         (account : str) (nonce price : Z) (w1 w2 : World),
    account_from_key lib key = Ok account ->
    get_transaction_count ports account (world st) = (Ok nonce, w1) ->
    gas_price ports w1 = (Ok price, w2) ->
    exists tx' tail,
      trace (snd (sign_and_send lib ports tx key st))
      = trace st ++ [GetTransactionCount account; GasPrice;
                     SignTransaction tx'] ++ tail /\
      dict_get (lit "from") tx' = Some (inr account) /\
      dict_get (lit "nonce") tx' = Some (inl nonce) /\
      dict_get (lit "gas") tx' = Some (inl 300000) /\
      dict_get (lit "gasPrice") tx' = Some (inl price) /\
      (forall k,
          k <> lit "from" -> k <> lit "nonce" -> k <> lit "gas" ->
          k <> lit "gasPrice" -> dict_get k tx' = dict_get k tx).
Proof.
  intros tx key st account nonce price w1 w2 Hacc Hnonce Hprice.
  exists (tx_to_sign account nonce price tx).
  unfold sign_and_send, bind, lift, port, ret.
  rewrite Hacc. cbn. rewrite Hnonce. cbn. rewrite Hprice. cbn.
  fold (tx_to_sign account nonce price tx).
  destruct (account_sign_transaction lib key _) as [raw|e]; cbn.
  - destruct (send_raw_transaction ports raw w2) as [[h|e] w3]; cbn;
      exists [SendRawTransaction raw]; (split; [now rewrite <- !app_assoc|]).
    all: unfold tx_to_sign; repeat split.
    all: try (intros k H1 H2 H3 H4).
    all: repeat first
           [ rewrite dict_get_set_same; reflexivity
           | rewrite dict_get_set_other
               by (assumption || (intros E; vm_compute in E; discriminate E)) ].
    all: reflexivity.
  - exists []. split; [now rewrite <- !app_assoc|].
    unfold tx_to_sign; repeat split.
    all: try (intros k H1 H2 H3 H4).
    all: repeat first
           [ rewrite dict_get_set_same; reflexivity
           | rewrite dict_get_set_other
               by (assumption || (intros E; vm_compute in E; discriminate E)) ].
    all: reflexivity.
Qed.

End SigningProperties.

(** ** Pinning and retrieval *)

Section StoreProperties.
Context {World : Type}.
Variable cfg : Config.
Variable lib : Lib.
Variable ports : Ports World.

(** Retrieval calls the Store Port at most once and nothing else. *)
Lemma fetch_from_ipfs_trace (uri : str) (st : St World) :
  exists evs,
    trace (snd (fetch_from_ipfs ports uri st)) = trace st ++ evs /\
    (evs = [] \/ exists url, evs = [RequestsGet url]).
Proof.
  unfold fetch_from_ipfs.
  destruct (Py.startswith (lit "ipfs://mock/") uri).
  - exists []. cbn. rewrite app_nil_r. auto.
  - unfold bind, port.
    destruct (requests_get ports _ (world st)) as [[r|e] w']; cbn.
    + eexists. split; [|right; eexists; reflexivity].
      destruct (status_code r =? 200); cbn; [|reflexivity].
      unfold lift. destruct (json r) as [body|e]; [|reflexivity].
      destruct (lookup _ body); reflexivity.
    + eexists. split; [reflexivity|]. right; eexists; reflexivity.
Qed.

(** X6: without pinning credentials the upload is a local computation: it
    makes no request, returns "ipfs://mock/" and the first 16 digits of the
    digest when the content can be digested, and raises the digest's
    exception otherwise. Every URI it returns is one that retrieval
    refuses: [fetch_from_ipfs] raises the 404 error on it before any
    request, so content deposited in this configuration cannot be read
    back through the gateway. *)
Theorem mock_uri_is_never_fetched :
  PINATA_API_KEY cfg = [] ->
  forall (content : str) (st st' : St World),
    (forall uri st1,
        upload_to_ipfs cfg lib ports content st = (Ok uri, st1) ->
        st1 = st /\
        (exists digest,
            sha256_hexdigest lib content = Ok digest /\
            uri = lit "ipfs://mock/" ++ firstn 16 digest) /\
        fetch_from_ipfs ports uri st'
        = (Err (HTTPException 404 (lit "Mock IPFS content not available")),
           st')) /\
    (forall digest,
        sha256_hexdigest lib content = Ok digest ->
        upload_to_ipfs cfg lib ports content st
        = (Ok (lit "ipfs://mock/" ++ firstn 16 digest), st)) /\
    (forall e,
        sha256_hexdigest lib content = Err e ->
        upload_to_ipfs cfg lib ports content st = (Err e, st)).
Proof.
  intros Hkey content st st'.
  unfold upload_to_ipfs. rewrite Hkey. unfold bind, lift, ret. cbv zeta.
  destruct (sha256_hexdigest lib content) as [digest|e].
  - split; [|split].
    + intros uri st1 E.
      assert (Hu : lit "ipfs://mock/" ++ firstn 16 digest = uri)
        by congruence.
      assert (Hs : st = st1) by congruence.
      subst uri st1.
      split; [reflexivity|]. split; [exists digest; auto|].
      unfold fetch_from_ipfs. rewrite startswith_app. reflexivity.
    + intros d E. injection E as <-. reflexivity.
    + intros e E. discriminate E.
  - split; [|split].
    + intros uri st1 E. discriminate E.
    + intros d E. discriminate E.
    + intros e' E. injection E as <-. reflexivity.
Qed.

(** X7: with credentials, a 200 answer carrying an IpfsHash gives the URI
    "ipfs://" followed by the hash, with one request made; retrieval of
    that URI requests the gateway URL followed by the same hash (for a
    hash that does not begin with "mock/" and does not contain
    "ipfs://"). *)
Theorem uploaded_uri_is_fetched_at_gateway :
  forall (content : str) (st st' : St World) (r : Response) (w1 : World)
         (body : list (str * str)) (ipfs_hash : str),
    PINATA_API_KEY cfg <> [] ->
    requests_post ports (lit "https://api.pinata.cloud/pinning/pinJSONToIPFS")
      content (PINATA_API_KEY cfg) (PINATA_SECRET cfg) (world st)
      = (Ok r, w1) ->
    status_code r = 200 ->
    json r = Ok body ->
    lookup (lit "IpfsHash") body = Some ipfs_hash ->
    Py.startswith (lit "mock/") ipfs_hash = false ->
    Py.contains (lit "ipfs://") ipfs_hash = false ->
    upload_to_ipfs cfg lib ports content st
    = (Ok (lit "ipfs://" ++ ipfs_hash),
       {| world := w1;
          trace := trace st
                     ++ [RequestsPost
                           (lit "https://api.pinata.cloud/pinning/pinJSONToIPFS")
                           content] |}) /\
    trace (snd (fetch_from_ipfs ports (lit "ipfs://" ++ ipfs_hash) st'))
    = trace st' ++ [RequestsGet (IPFS_GATEWAY ++ ipfs_hash)].
Proof.
  intros content st st' r w1 body ipfs_hash Hkey Hpost Hst Hjson Hlook
         Hmock Hin.
  split.
  - unfold upload_to_ipfs.
    destruct (PINATA_API_KEY cfg) as [|c key]; [congruence|].
    unfold bind, port, lift. rewrite Hpost. cbn -[lit lookup].
    rewrite Hst. cbn -[lit lookup]. rewrite Hjson, Hlook. reflexivity.
  - unfold fetch_from_ipfs.
    assert (Hsw : Py.startswith (lit "ipfs://mock/") (lit "ipfs://" ++ ipfs_hash)
                  = false).
    { change (lit "ipfs://mock/") with (lit "ipfs://" ++ lit "mock/").
      cbn. cbn in Hmock. exact Hmock. }
    rewrite Hsw.
    rewrite replace_prefix by (intros E; vm_compute in E; discriminate E).
    rewrite (replace_absent _ _ _ Hin).
    change (lit "" ++ ipfs_hash) with ipfs_hash.
    unfold bind, port.
    destruct (requests_get ports _ (world st')) as [[r'|e] w']; cbn;
      [|reflexivity].
    destruct (status_code r' =? 200); cbn; [|reflexivity].
    unfold lift. destruct (json r') as [body'|e]; [|reflexivity].
    destruct (lookup _ body'); reflexivity.
Qed.

End StoreProperties.

(** ** Deposit *)

Section DepositProperties.
Context {World : Type}.
Variable cfg : Config.
Variable lib : Lib.
Variable ports : Ports World.

(** X8: whenever [deposit] answers, signed or unsigned, the hash, the quality
    and the credits in its answer are those [evaluate] previews for the
    same text. *)
Theorem deposit_agrees_with_evaluate :
  forall (req : DepositRequest) (language : str) (st : St World)
         (resp : DepositResponse),
    fst (deposit cfg lib ports req st) = Ok resp ->
    exists r : EvaluateResponse,
      evaluate lib (dr_code req) language = Ok r /\
      match resp with
      | Unsigned h _ q c _ _ | Deposited h _ q c _ _ =>
          h = ev_code_hash r /\ q = ev_quality r /\
          c = ev_estimated_credits r
      end.
Proof.
  intros req language st resp H.
  destruct (estimate_quality_spec (dr_code req))
    as (avg & q & _ & _ & _ & Hi & Hq).
  destruct (price_of_exact q ltac:(lia)) as [Hp _].
  unfold deposit in H.
  destruct (Py.len (dr_code req) <? 50); [discriminate H|].
  unfold bind, lift in H. rewrite Hq in H.
  destruct (hash_code lib (dr_code req)) as [h|eh] eqn:Hh;
    [|discriminate H].
  eexists. split.
  { unfold evaluate. rewrite Hq. cbn [rbind]. rewrite Hp. cbn [rbind].
    rewrite Hh. reflexivity. }
  destruct (upload_to_ipfs cfg lib ports (dr_code req) st) as [[uri|e] st1];
    [|discriminate H].
  destruct (falsy (dr_private_key req)).
  - cbn in H. injection H as <-. cbn. unfold credits_of. auto.
  - unfold get_pawn_shop in H.
    destruct (PAWN_SHOP_ADDRESS cfg) as [|c a]; [discriminate H|].
    unfold ret, port in H.
    destruct (build_transaction ports _ _ _ (world st1)) as [[tx|e] w];
      [|discriminate H].
    destruct (sign_and_send lib ports tx _ _) as [[txh|e] st2];
      [|discriminate H].
    cbn in H. injection H as <-. cbn. unfold credits_of. auto.
Qed.


(** X10: a signed deposit of a text that can be hashed, on a deployment
    without contract address, raises the 500 error only after the upload:
    the state it leaves is the state after a successful upload, and no
    ledger call has been made. *)
Theorem signed_deposit_without_contract_uploads_first :
  forall (req : DepositRequest) (st st1 : St World) (h : bytes) (uri : str),
    50 <= Py.len (dr_code req) ->
    falsy (dr_private_key req) = false ->
    PAWN_SHOP_ADDRESS cfg = [] ->
    hash_code lib (dr_code req) = Ok h ->
    upload_to_ipfs cfg lib ports (dr_code req) st = (Ok uri, st1) ->
    deposit cfg lib ports req st
    = (Err (HTTPException 500 (lit "PawnShop contract not configured")), st1).
Proof.
  intros req st st1 h uri Hlen Hkey Hcfg Hh Hup.
  destruct (estimate_quality_spec (dr_code req))
    as (avg & q & _ & _ & _ & _ & Hq).
  unfold deposit. apply Z.ltb_ge in Hlen. rewrite Hlen.
  unfold bind, lift. rewrite Hq, Hh, Hup, Hkey.
  unfold get_pawn_shop. rewrite Hcfg. reflexivity.
Qed.

(** X11: without pinning credentials an unsigned deposit of 50 characters or
    more touches nothing: whatever it returns, the state is as given. When
    the text can be hashed and digested it answers with the unsigned
    record, which carries a mock URI and whatever contract address is
    configured, even an empty one; otherwise it raises the exception of
    the hash, or else of the digest. *)
Theorem unsigned_deposit_without_credentials_is_pure :
  forall (req : DepositRequest) (st : St World),
    50 <= Py.len (dr_code req) ->
    falsy (dr_private_key req) = true ->
    PINATA_API_KEY cfg = [] ->
    snd (deposit cfg lib ports req st) = st /\
    (forall (h : bytes) (digest : str),
        hash_code lib (dr_code req) = Ok h ->
        sha256_hexdigest lib (dr_code req) = Ok digest ->
        exists quality,
          estimate_quality (dr_code req) = Ok quality /\
          57 <= quality <= 97 /\
          deposit cfg lib ports req st
          = (Ok (Unsigned
                   (hexbytes_hex lib h)
                   (lit "ipfs://mock/" ++ firstn 16 digest)
                   quality (quality * 10)
                   {| td_to := PAWN_SHOP_ADDRESS cfg;
                      td_function := lit "deposit";
                      td_args :=
                        (hexbytes_hex lib h,
                         lit "ipfs://mock/" ++ firstn 16 digest,
                         quality) |}
                   (lit "Sign and submit this transaction to deposit")),
             st)) /\
    (forall eh : exn,
        hash_code lib (dr_code req) = Err eh ->
        deposit cfg lib ports req st = (Err eh, st)) /\
    (forall (h : bytes) (ed : exn),
        hash_code lib (dr_code req) = Ok h ->
        sha256_hexdigest lib (dr_code req) = Err ed ->
        deposit cfg lib ports req st = (Err ed, st)).
Proof.
  intros req st Hlen Hkey Hpin.
  destruct (estimate_quality_spec (dr_code req))
    as (avg & q & _ & _ & _ & Hi & Hq).
  unfold deposit. apply Z.ltb_ge in Hlen. rewrite Hlen.
  unfold bind, lift. rewrite Hq.
  unfold upload_to_ipfs. rewrite Hpin. unfold bind, lift, ret. cbv zeta.
  rewrite Hkey.
  destruct (hash_code lib (dr_code req)) as [h|eh].
  - destruct (sha256_hexdigest lib (dr_code req)) as [digest|ed].
    + split; [reflexivity|]. split; [|split].
      * intros h' d' Eh Ed.
        assert (h' = h) by congruence. assert (d' = digest) by congruence.
        subst h' d'. exists q. auto.
      * intros eh E. discriminate E.
      * intros h' ed' _ E. discriminate E.
    + split; [reflexivity|]. split; [|split].
      * intros h' d' _ E. discriminate E.
      * intros eh E. discriminate E.
      * intros h' ed' _ E. assert (ed' = ed) by congruence. subst ed'.
        reflexivity.
  - split; [reflexivity|]. split; [|split].
    + intros h' d' E. discriminate E.
    + intros eh' E. assert (eh' = eh) by congruence. subst eh'.
      reflexivity.
    + intros h' ed' E. discriminate E.
Qed.

End DepositProperties.

(** ** Purchase, access and pattern lookup *)

Section LedgerEndpointProperties.
Context {World : Type}.
Variable cfg : Config.
Variable lib : Lib.
Variable ports : Ports World.

(** X12: a hash that is not hexadecimal makes the three endpoints that take one
    raise [ValueError] before anything else: the state is returned as
    given, also when no contract address is configured. *)
Theorem malformed_hash_is_rejected_first :
  forall (code_hash buyer key : str) (st : St World) (e : exn),
    Py.fromhex (Py.replace (lit "0x") (lit "") code_hash) = Err e ->
    e = ValueError /\
    purchase cfg lib ports
      {| pr_code_hash := code_hash; pr_private_key := key |} st
    = (Err ValueError, st) /\
    check_access cfg ports buyer code_hash st = (Err ValueError, st) /\
    get_pattern cfg ports code_hash st = (Err ValueError, st).
Proof.
  intros code_hash buyer key st e H.
  pose proof (fromhex_error _ _ H) as ->.
  unfold purchase, check_access, get_pattern, bind, lift. cbn [pr_code_hash].
  rewrite H. auto.
Qed.

(** X13: without a contract address the three endpoints raise the 500 error on
    any well-formed hash, and make no call. *)
Theorem unconfigured_contract_is_reported :
  forall (code_hash buyer key : str) (st : St World) (h : bytes),
    Py.fromhex (Py.replace (lit "0x") (lit "") code_hash) = Ok h ->
    PAWN_SHOP_ADDRESS cfg = [] ->
    let unconfigured :=
      HTTPException 500 (lit "PawnShop contract not configured") in
    purchase cfg lib ports
      {| pr_code_hash := code_hash; pr_private_key := key |} st
    = (Err unconfigured, st) /\
    check_access cfg ports buyer code_hash st = (Err unconfigured, st) /\
    get_pattern cfg ports code_hash st = (Err unconfigured, st).
Proof.
  intros code_hash buyer key st h H Hcfg.
  unfold purchase, check_access, get_pattern, bind, lift, get_pawn_shop.
  cbn [pr_code_hash]. rewrite H, Hcfg. cbn. auto.
Qed.

(** X14: [purchase] never calls the Store Port, and it builds, signs or sends a
    transaction only when the hash is well formed and the ledger has
    answered [getPattern] with an active pattern. *)
Theorem purchase_writes_only_for_active_patterns :
  forall (req : PurchaseRequest) (st : St World),
    exists evs,
      trace (snd (purchase cfg lib ports req st)) = trace st ++ evs /\
      forallb is_ledger evs = true /\
      (existsb is_ledger_write evs = true ->
       exists h pattern w',
         Py.fromhex (Py.replace (lit "0x") (lit "") (pr_code_hash req))
           = Ok h /\
         call_getPattern ports (PAWN_SHOP_ADDRESS cfg) h (world st)
           = (Ok pattern, w') /\
         p_active pattern = true).
Proof.
  intros req st. unfold purchase, bind, lift.
  destruct (Py.fromhex _) as [h|e];
    [|exists []; rewrite app_nil_r; repeat split; discriminate].
  unfold get_pawn_shop.
  destruct (PAWN_SHOP_ADDRESS cfg) as [|c a] eqn:Hcfg;
    [exists []; rewrite app_nil_r; repeat split; discriminate|].
  unfold ret, port.
  destruct (call_getPattern ports (c :: a) h (world st))
    as [[pattern|e] w1] eqn:Hpat;
    [|eexists [_]; repeat split; discriminate].
  destruct (p_active pattern) eqn:Hact; cbn [negb];
    [|eexists [_]; repeat split; discriminate].
  cbv zeta. unfold bind, port. cbn [world trace].
  destruct (build_transaction ports (c :: a) (FnPurchase h)
              [(lit "chainId", inl CHAIN_ID)] w1) as [[tx|e] w2];
    cbn [fst snd].
  - destruct (sign_and_send_only_ledger lib ports tx (pr_private_key req)
                {| world := w2;
                   trace := (trace st ++ [EthCall (c :: a) (FnGetPattern h)])
                              ++ [BuildTransaction (c :: a) (FnPurchase h)] |})
      as (evs & Htr & Hled).
    destruct (sign_and_send lib ports tx (pr_private_key req) _)
      as [[txh|e] st3]; cbn [fst snd trace] in *;
      (exists ([EthCall (c :: a) (FnGetPattern h);
                BuildTransaction (c :: a) (FnPurchase h)] ++ evs);
       split; [rewrite Htr, <- !app_assoc; reflexivity|];
       split; [cbn; exact Hled|];
       intros _; exists h, pattern, w1; auto).
  - exists [EthCall (c :: a) (FnGetPattern h);
            BuildTransaction (c :: a) (FnPurchase h)].
    split; [cbn; rewrite <- !app_assoc; reflexivity|].
    split; [reflexivity|].
    intros _; exists h, pattern, w1; auto.
Qed.

(** X15: when the ledger reports a grant and the fetch succeeds, [check_access]
    returns the code fetched, with the URI; whether the pattern is still
    active plays no part. *)
Theorem check_access_returns_the_code :
  forall (buyer code_hash : str) (st st3 : St World) (h : bytes)
         (w1 w2 : World) (pattern : Pattern) (code : str),
    Py.fromhex (Py.replace (lit "0x") (lit "") code_hash) = Ok h ->
    PAWN_SHOP_ADDRESS cfg <> [] ->
    call_hasAccess ports (PAWN_SHOP_ADDRESS cfg) buyer h (world st)
      = (Ok true, w1) ->
    call_getPattern ports (PAWN_SHOP_ADDRESS cfg) h w1 = (Ok pattern, w2) ->
    fetch_from_ipfs ports (p_ipfsUri pattern)
      {| world := w2;
         trace := (trace st
                     ++ [EthCall (PAWN_SHOP_ADDRESS cfg) (FnHasAccess buyer h)])
                    ++ [EthCall (PAWN_SHOP_ADDRESS cfg) (FnGetPattern h)] |}
      = (Ok code, st3) ->
    check_access cfg ports buyer code_hash st
    = (Ok {| ac_has_access := true;
             ac_ipfs_uri := Some (p_ipfsUri pattern);
             ac_code := Some code |}, st3).
Proof.
  intros buyer code_hash st st3 h w1 w2 pattern code Hhex Hcfg Hacc Hpat Hf.
  unfold check_access, bind, lift. rewrite Hhex.
  unfold get_pawn_shop.
  destruct (PAWN_SHOP_ADDRESS cfg) as [|c a]; [congruence|].
  unfold ret, port, try_except, bind. rewrite Hacc. cbn.
  rewrite Hpat. cbn. rewrite Hf. reflexivity.
Qed.

(** X16: [check_access] only reads: it makes at most three calls, none of them
    builds, signs or sends a transaction, and none uploads. *)
Theorem check_access_is_read_only :
  forall (buyer code_hash : str) (st : St World),
    exists evs,
      trace (snd (check_access cfg ports buyer code_hash st))
      = trace st ++ evs /\
      (List.length evs <= 3)%nat /\
      forallb (fun ev => match ev with
                         | EthCall _ _ | RequestsGet _ => true
                         | _ => false
                         end) evs = true.
Proof.
  intros buyer code_hash st. unfold check_access, bind, lift.
  destruct (Py.fromhex _) as [h|e];
    [|exists []; rewrite app_nil_r; repeat split; cbn; lia].
  unfold get_pawn_shop.
  destruct (PAWN_SHOP_ADDRESS cfg) as [|c a];
    [exists []; rewrite app_nil_r; repeat split; cbn; lia|].
  unfold ret, port.
  destruct (call_hasAccess ports (c :: a) buyer h (world st))
    as [[[|]|e] w1]; cbn [negb fst snd trace world];
    try (eexists [_]; repeat split; cbn; lia).
  destruct (call_getPattern ports (c :: a) h w1) as [[pattern|e] w2];
    cbn [fst snd trace world].
  2:{ exists [EthCall (c :: a) (FnHasAccess buyer h);
              EthCall (c :: a) (FnGetPattern h)].
      rewrite <- app_assoc. repeat split. cbn. lia. }
  unfold try_except, bind.
  destruct (fetch_from_ipfs_trace ports (p_ipfsUri pattern)
              {| world := w2;
                 trace := (trace st ++ [EthCall (c :: a) (FnHasAccess buyer h)])
                            ++ [EthCall (c :: a) (FnGetPattern h)] |})
    as (evs & Htr & Hevs).
  exists ([EthCall (c :: a) (FnHasAccess buyer h);
           EthCall (c :: a) (FnGetPattern h)] ++ evs).
  destruct (fetch_from_ipfs ports (p_ipfsUri pattern) _) as [[code|e] st3];
    cbn [fst snd trace ret] in *;
    (split; [rewrite Htr, <- !app_assoc; reflexivity|];
     destruct Hevs as [-> | [url ->]]; split; cbn; (lia || reflexivity)).
Qed.

(** X17: for a pattern the ledger answers as not active, [get_pattern] does not
    raise: it returns the record as read, with active false, where
    [purchase] raises the 404 error on the same answer. Both make the one
    read. *)
Theorem get_pattern_answers_for_inactive_patterns :
  forall (code_hash key : str) (st : St World) (h : bytes)
         (pattern : Pattern) (w' : World),
    Py.fromhex (Py.replace (lit "0x") (lit "") code_hash) = Ok h ->
    PAWN_SHOP_ADDRESS cfg <> [] ->
    call_getPattern ports (PAWN_SHOP_ADDRESS cfg) h (world st)
      = (Ok pattern, w') ->
    p_active pattern = false ->
    let st' :=
      {| world := w';
         trace := trace st
                    ++ [EthCall (PAWN_SHOP_ADDRESS cfg) (FnGetPattern h)] |} in
    get_pattern cfg ports code_hash st
    = (Ok {| gp_code_hash := code_hash;
             gp_ipfs_uri := p_ipfsUri pattern;
             gp_seller := p_seller pattern;
             gp_price := p_price pattern;
             gp_quality := p_quality pattern;
             gp_times_sold := p_timesSold pattern;
             gp_active := false |}, st') /\
    purchase cfg lib ports
      {| pr_code_hash := code_hash; pr_private_key := key |} st
    = (Err (HTTPException 404 (lit "Pattern not found or inactive")), st').
Proof.
  intros code_hash key st h pattern w' Hhex Hcfg Hpat Hact.
  unfold get_pattern, purchase, bind, lift. cbn [pr_code_hash].
  rewrite Hhex. unfold get_pawn_shop.
  destruct (PAWN_SHOP_ADDRESS cfg) as [|c a]; [congruence|].
  unfold ret, port. rewrite Hpat, Hact. cbn. auto.
Qed.

End LedgerEndpointProperties.

(** ** Complete runs *)

Section CompleteRuns.
Context {World : Type}.
Variable cfg : Config.
Variable lib : Lib.
Variable ports : Ports World.

(** X18: a purchase that goes through: the pattern is read once and is active,
    the purchase transaction is built for the same hash, then signed and
    sent. The answer repeats the hash as the caller wrote it and reports
    the price read from the ledger before the transaction. *)
Theorem purchase_reports_the_price_read :
  forall (req : PurchaseRequest) (st st3 : St World) (h : bytes)
         (pattern : Pattern) (w1 w2 : World) (tx : dict) (tx_hash : str),
    Py.fromhex (Py.replace (lit "0x") (lit "") (pr_code_hash req)) = Ok h ->
    PAWN_SHOP_ADDRESS cfg <> [] ->
    call_getPattern ports (PAWN_SHOP_ADDRESS cfg) h (world st)
      = (Ok pattern, w1) ->
    p_active pattern = true ->
    build_transaction ports (PAWN_SHOP_ADDRESS cfg) (FnPurchase h)
      [(lit "chainId", inl CHAIN_ID)] w1 = (Ok tx, w2) ->
    sign_and_send lib ports tx (pr_private_key req)
      {| world := w2;
         trace := (trace st
                     ++ [EthCall (PAWN_SHOP_ADDRESS cfg) (FnGetPattern h)])
                    ++ [BuildTransaction (PAWN_SHOP_ADDRESS cfg)
                          (FnPurchase h)] |}
      = (Ok tx_hash, st3) ->
    purchase cfg lib ports req st
    = (Ok {| pu_code_hash := pr_code_hash req;
             pu_price := p_price pattern;
             pu_tx_hash := tx_hash;
             pu_message := lit "Purchased! -"
                             ++ Py.str_of_int (p_price pattern)
                             ++ lit " $RECYCLE" |}, st3).
Proof.
  intros req st st3 h pattern w1 w2 tx tx_hash Hhex Hcfg Hpat Hact Hb Hs.
  unfold purchase, bind, lift. rewrite Hhex. unfold get_pawn_shop.
  destruct (PAWN_SHOP_ADDRESS cfg) as [|c a]; [congruence|].
  unfold ret, port. rewrite Hpat, Hact. cbv zeta. cbn [negb world trace].
  rewrite Hb, Hs. reflexivity.
Qed.

(** X19: a signed deposit that goes through: the text is hashed and
    uploaded first, then the deposit transaction is built with the hash of
    the text, the URI the upload returned and the quality computed from
    the text, which is between 57 and 97; the credits announced are ten
    times that quality. *)
Theorem signed_deposit_submits_the_computed_quality :
  forall (req : DepositRequest) (st st1 st3 : St World) (h : bytes)
         (uri : str) (w2 : World) (tx : dict) (tx_hash : str),
    50 <= Py.len (dr_code req) ->
    falsy (dr_private_key req) = false ->
    PAWN_SHOP_ADDRESS cfg <> [] ->
    hash_code lib (dr_code req) = Ok h ->
    upload_to_ipfs cfg lib ports (dr_code req) st = (Ok uri, st1) ->
    exists quality key,
      estimate_quality (dr_code req) = Ok quality /\
      57 <= quality <= 97 /\
      dr_private_key req = Some key /\
      let fn := FnDeposit h uri quality in
      (build_transaction ports (PAWN_SHOP_ADDRESS cfg) fn
         [(lit "chainId", inl CHAIN_ID)] (world st1) = (Ok tx, w2) ->
       sign_and_send lib ports tx key
         {| world := w2;
            trace := trace st1
                       ++ [BuildTransaction (PAWN_SHOP_ADDRESS cfg) fn] |}
         = (Ok tx_hash, st3) ->
       deposit cfg lib ports req st
       = (Ok (Deposited
                (hexbytes_hex lib h)
                uri quality (quality * 10) tx_hash
                (lit "Deposited! +" ++ Py.str_of_int (quality * 10)
                   ++ lit " $RECYCLE")), st3)).
Proof.
  intros req st st1 st3 h uri w2 tx tx_hash Hlen Hkey Hcfg Hh Hup.
  destruct (estimate_quality_spec (dr_code req))
    as (avg & q & _ & _ & _ & Hi & Hq).
  destruct (dr_private_key req) as [key|] eqn:Hpk; [|discriminate Hkey].
  exists q, key. split; [exact Hq|]. split; [exact Hi|].
  split; [reflexivity|]. intros fn Hb Hs. subst fn.
  unfold deposit. apply Z.ltb_ge in Hlen. rewrite Hlen.
  unfold bind, lift. rewrite Hq, Hh, Hup, Hpk, Hkey.
  unfold get_pawn_shop.
  destruct (PAWN_SHOP_ADDRESS cfg) as [|c a]; [congruence|].
  unfold ret, port. cbv zeta. rewrite Hb. cbn [world trace].
  rewrite Hs. reflexivity.
Qed.

(** X20: [deposit] builds, signs or sends a transaction only for a text of 50
    characters or more, with a non-empty key, and after an upload that
    succeeded. *)
Theorem deposit_writes_only_after_upload :
  forall (req : DepositRequest) (st : St World),
    exists evs,
      trace (snd (deposit cfg lib ports req st)) = trace st ++ evs /\
      (existsb is_ledger_write evs = true ->
       50 <= Py.len (dr_code req) /\
       falsy (dr_private_key req) = false /\
       exists uri st1,
         upload_to_ipfs cfg lib ports (dr_code req) st = (Ok uri, st1)).
Proof.
  intros req st. unfold deposit.
  destruct (Py.len (dr_code req) <? 50) eqn:Hlen;
    [exists []; cbn; rewrite app_nil_r; split; [reflexivity|discriminate]|].
  apply Z.ltb_ge in Hlen.
  destruct (estimate_quality_spec (dr_code req))
    as (avg & q & _ & _ & _ & _ & Hq).
  unfold bind, lift. rewrite Hq.
  destruct (hash_code lib (dr_code req)) as [h|eh];
    [|exists []; cbn; rewrite app_nil_r; split; [reflexivity|discriminate]].
  destruct (upload_to_ipfs_trace cfg lib ports (dr_code req) st)
    as (evs0 & Htr0 & Hst0).
  assert (Hnw : existsb is_ledger_write evs0 = false).
  { clear -Hst0. induction evs0 as [|ev evs IH]; [reflexivity|].
    cbn in *. apply andb_true_iff in Hst0. destruct Hst0 as [Hev Hevs].
    rewrite (IH Hevs). destruct ev; try discriminate; reflexivity. }
  destruct (upload_to_ipfs cfg lib ports (dr_code req) st)
    as [[uri|e] st1] eqn:Hup; cbn [fst snd] in Htr0.
  2:{ exists evs0. split; [exact Htr0|]. rewrite Hnw. discriminate. }
  destruct (falsy (dr_private_key req)) eqn:Hkey.
  { exists evs0. split; [exact Htr0|]. rewrite Hnw. discriminate. }
  assert (Hgoal : 50 <= Py.len (dr_code req) /\ false = false /\
                  exists uri0 st0,
                    (Ok uri, st1) = (@Ok str uri0, st0)).
  { split; [exact Hlen|]. split; [reflexivity|]. exists uri, st1.
    reflexivity. }
  unfold get_pawn_shop.
  destruct (PAWN_SHOP_ADDRESS cfg) as [|c a].
  { exists evs0. split; [exact Htr0|]. intros _. exact Hgoal. }
  unfold ret, port. cbv zeta.
  destruct (build_transaction ports (c :: a) _ _ (world st1))
    as [[tx|e] w2]; cbn [fst snd trace].
  2:{ eexists. split; [rewrite Htr0, <- app_assoc; reflexivity|].
      intros _. exact Hgoal. }
  match goal with
  | |- context [sign_and_send lib ports tx ?k ?s] =>
      destruct (sign_and_send_only_ledger lib ports tx k s)
        as (evs1 & Htr1 & _);
      destruct (sign_and_send lib ports tx k s) as [[txh|e] st3]
  end; cbn [fst snd trace] in *;
    (eexists; split;
     [rewrite Htr1, Htr0, <- !app_assoc; reflexivity
     | intros _; exact Hgoal]).
Qed.

(** X21: when the retrieval is answered 200 with a body that has no "code"
    field, [check_access] returns the empty string as the code, not
    [None]: the answer differs from the one given when retrieval fails. *)
Theorem check_access_defaults_to_empty_code :
  forall (buyer code_hash : str) (st : St World) (h : bytes)
         (w1 w2 w3 : World) (pattern : Pattern) (r : Response)
         (body : list (str * str)),
    Py.fromhex (Py.replace (lit "0x") (lit "") code_hash) = Ok h ->
    PAWN_SHOP_ADDRESS cfg <> [] ->
    call_hasAccess ports (PAWN_SHOP_ADDRESS cfg) buyer h (world st)
      = (Ok true, w1) ->
    call_getPattern ports (PAWN_SHOP_ADDRESS cfg) h w1 = (Ok pattern, w2) ->
    Py.startswith (lit "ipfs://mock/") (p_ipfsUri pattern) = false ->
    requests_get ports
      (IPFS_GATEWAY ++ Py.replace (lit "ipfs://") (lit "") (p_ipfsUri pattern))
      w2 = (Ok r, w3) ->
    status_code r = 200 ->
    json r = Ok body ->
    lookup (lit "code") body = None ->
    fst (check_access cfg ports buyer code_hash st)
    = Ok {| ac_has_access := true;
            ac_ipfs_uri := Some (p_ipfsUri pattern);
            ac_code := Some (lit "") |}.
Proof.
  intros buyer code_hash st h w1 w2 w3 pattern r body
         Hhex Hcfg Hacc Hpat Hmock Hget Hst Hjson Hlook.
  unfold check_access, bind, lift. rewrite Hhex. unfold get_pawn_shop.
  destruct (PAWN_SHOP_ADDRESS cfg) as [|c a]; [congruence|].
  unfold ret, port, try_except, bind. rewrite Hacc.
  cbn [negb world trace]. rewrite Hpat. cbv zeta.
  unfold fetch_from_ipfs. rewrite Hmock.
  unfold bind, port, lift, ret. cbn [world trace]. rewrite Hget.
  rewrite Hst. change (200 =? 200) with true. cbv iota.
  rewrite Hjson, Hlook. reflexivity.
Qed.

End CompleteRuns.

(** ** The further properties on sample deployments *)

Lemma sign_and_send_calls_in_order_witness :
  sign_and_send demo_lib nonce_down_ports built_tx (lit "0xkey") demo_st
  = (Err (LibraryError (lit "ConnectionError")),
     {| world := 1%nat;
        trace := [GetTransactionCount (lit "0xA11CE")] |}) /\
  fst (sign_and_send demo_lib live_ports built_tx (lit "0xkey") demo_st)
  = Ok (lit "0x1234").
Proof.
  destruct (sign_and_send_calls_in_order demo_lib nonce_down_ports built_tx
              (lit "0xkey") demo_st) as (_ & _ & Hdown).
  destruct (sign_and_send_calls_in_order demo_lib live_ports built_tx
              (lit "0xkey") demo_st) as (_ & _ & Hlive).
  split.
  - exact (proj1 (Hdown (lit "0xA11CE") eq_refl)
             (LibraryError (lit "ConnectionError")) 1%nat eq_refl).
  - destruct (Hlive (lit "0xA11CE") eq_refl) as [_ Hnonce].
    destruct (Hnonce 7 1%nat eq_refl) as [_ Hgas].
    destruct (Hgas 5 2%nat eq_refl) as [_ Hsign].
    destruct (Hsign [xf8; x6b] eq_refl) as [_ Hsend].
    rewrite (Hsend [xf8; x6b] 3%nat eq_refl). reflexivity.
Defined.

Lemma signed_transaction_fields_witness :
  dict_get (lit "gas") built_tx = Some (inl 21000) /\
  exists tx' tail,
    trace (snd (sign_and_send demo_lib live_ports built_tx (lit "0xkey")
                  demo_st))
    = trace demo_st
        ++ [GetTransactionCount (lit "0xA11CE"); GasPrice; SignTransaction tx']
        ++ tail /\
    dict_get (lit "gas") tx' = Some (inl 300000) /\
    dict_get (lit "nonce") tx' = Some (inl 7) /\
    dict_get (lit "chainId") tx' = Some (inl CHAIN_ID).
Proof.
  split; [reflexivity|].
  destruct (signed_transaction_fields demo_lib live_ports built_tx
              (lit "0xkey") demo_st (lit "0xA11CE") 7 5 1%nat 2%nat
              eq_refl eq_refl eq_refl)
    as (tx' & tail & Htr & _ & Hnonce & Hgas & _ & Hother).
  exists tx', tail.
  split; [exact Htr|]. split; [exact Hgas|]. split; [exact Hnonce|].
  rewrite Hother; [reflexivity| | | |];
    intros E; vm_compute in E; discriminate E.
Defined.

Lemma mock_uri_is_never_fetched_witness :
  PINATA_API_KEY bare_cfg = [] /\
  upload_to_ipfs bare_cfg demo_lib demo_ports text60 demo_st
  = (Ok (lit "ipfs://mock/9f86d081884c7d65"), demo_st) /\
  fetch_from_ipfs demo_ports (lit "ipfs://mock/9f86d081884c7d65") demo_st
  = (Err (HTTPException 404 (lit "Mock IPFS content not available")),
     demo_st) /\
  upload_to_ipfs bare_cfg demo_lib demo_ports text_surrogates demo_st
  = (Err UnicodeEncodeError, demo_st).
Proof.
  assert (H : PINATA_API_KEY bare_cfg = []) by reflexivity.
  split; [exact H|].
  destruct (@mock_uri_is_never_fetched nat bare_cfg demo_lib demo_ports H
              text60 demo_st demo_st) as (Hany & Hok & _).
  pose proof (Hok _ eq_refl) as Hup.
  split; [exact Hup|].
  split; [exact (proj2 (proj2 (Hany _ _ Hup)))|].
  destruct (@mock_uri_is_never_fetched nat bare_cfg demo_lib demo_ports H
              text_surrogates demo_st demo_st) as (_ & _ & Herr).
  exact (Herr UnicodeEncodeError eq_refl).
Defined.

Lemma uploaded_uri_is_fetched_at_gateway_witness :
  upload_to_ipfs demo_cfg demo_lib demo_ports text60 demo_st
  = (Ok (lit "ipfs://QmDemo"),
     {| world := 1%nat;
        trace := [RequestsPost
                    (lit "https://api.pinata.cloud/pinning/pinJSONToIPFS")
                    text60] |}) /\
  trace (snd (fetch_from_ipfs demo_ports (lit "ipfs://QmDemo") demo_st))
  = [RequestsGet (lit "https://gateway.pinata.cloud/ipfs/QmDemo")].
Proof.
  assert (Hkey : PINATA_API_KEY demo_cfg <> [])
    by (vm_compute; discriminate).
  exact (uploaded_uri_is_fetched_at_gateway demo_cfg demo_lib demo_ports
           text60 demo_st demo_st _ 1%nat [(lit "IpfsHash", lit "QmDemo")]
           (lit "QmDemo") Hkey eq_refl eq_refl eq_refl eq_refl eq_refl
           eq_refl).
Defined.

Lemma deposit_agrees_with_evaluate_witness :
  exists resp r,
    fst (deposit demo_cfg demo_lib demo_ports commit_request demo_st)
    = Ok resp /\
    evaluate demo_lib text60 (lit "python") = Ok r /\
    match resp with
    | Unsigned h _ q c _ _ | Deposited h _ q c _ _ =>
        h = ev_code_hash r /\ q = ev_quality r /\ c = ev_estimated_credits r
    end.
Proof.
  destruct (fst (deposit demo_cfg demo_lib demo_ports commit_request demo_st))
    as [resp|e] eqn:H; [|vm_compute in H; discriminate H].
  destruct (deposit_agrees_with_evaluate demo_cfg demo_lib demo_ports
              commit_request (lit "python") demo_st resp H)
    as (r & Hr & Hm).
  exists resp, r. split; [reflexivity|]. split; [exact Hr | exact Hm].
Defined.


Lemma signed_deposit_without_contract_uploads_first_witness :
  falsy (dr_private_key commit_request) = false /\
  deposit pin_only_cfg demo_lib demo_ports commit_request demo_st
  = (Err (HTTPException 500 (lit "PawnShop contract not configured")),
     {| world := 1%nat;
        trace := [RequestsPost
                    (lit "https://api.pinata.cloud/pinning/pinJSONToIPFS")
                    text60] |}).
Proof.
  assert (Hlen : 50 <= Py.len (dr_code commit_request))
    by (vm_compute; discriminate).
  split; [reflexivity|].
  exact (signed_deposit_without_contract_uploads_first pin_only_cfg demo_lib
           demo_ports commit_request demo_st _ [x12; x34]
           (lit "ipfs://QmDemo") Hlen eq_refl eq_refl eq_refl eq_refl).
Defined.

Lemma unsigned_deposit_without_credentials_is_pure_witness :
  PINATA_API_KEY bare_cfg = [] /\
  (exists resp,
      deposit bare_cfg demo_lib demo_ports quote_request demo_st
      = (Ok resp, demo_st)) /\
  deposit bare_cfg demo_lib demo_ports surrogate_request demo_st
  = (Err UnicodeEncodeError, demo_st).
Proof.
  assert (Hlen : 50 <= Py.len (dr_code quote_request))
    by (vm_compute; discriminate).
  assert (Hlen' : 50 <= Py.len (dr_code surrogate_request))
    by (vm_compute; discriminate).
  split; [reflexivity|]. split.
  - destruct (unsigned_deposit_without_credentials_is_pure bare_cfg demo_lib
                demo_ports quote_request demo_st Hlen eq_refl eq_refl)
      as (_ & Hok & _).
    destruct (Hok [x12; x34] _ eq_refl eq_refl) as (q & _ & _ & Hdep).
    eexists. exact Hdep.
  - destruct (unsigned_deposit_without_credentials_is_pure bare_cfg demo_lib
                demo_ports surrogate_request demo_st Hlen' eq_refl eq_refl)
      as (_ & _ & Herr & _).
    exact (Herr UnicodeEncodeError eq_refl).
Defined.

Lemma malformed_hash_is_rejected_first_witness :
  Py.fromhex (Py.replace (lit "0x") (lit "") (lit "0xZZ")) = Err ValueError /\
  purchase demo_cfg demo_lib demo_ports
    {| pr_code_hash := lit "0xZZ"; pr_private_key := lit "0xkey" |} demo_st
  = (Err ValueError, demo_st) /\
  check_access demo_cfg demo_ports (lit "alice") (lit "0xZZ") demo_st
  = (Err ValueError, demo_st) /\
  get_pattern demo_cfg demo_ports (lit "0xZZ") demo_st
  = (Err ValueError, demo_st).
Proof.
  assert (H : Py.fromhex (Py.replace (lit "0x") (lit "") (lit "0xZZ"))
              = Err ValueError) by (vm_compute; reflexivity).
  split; [exact H|].
  exact (proj2 (malformed_hash_is_rejected_first demo_cfg demo_lib demo_ports
                  (lit "0xZZ") (lit "alice") (lit "0xkey") demo_st
                  ValueError H)).
Defined.

Lemma unconfigured_contract_is_reported_witness :
  PAWN_SHOP_ADDRESS bare_cfg = [] /\
  purchase bare_cfg demo_lib demo_ports demo_purchase demo_st
  = (Err (HTTPException 500 (lit "PawnShop contract not configured")),
     demo_st) /\
  check_access bare_cfg demo_ports (lit "alice") (lit "0x1234") demo_st
  = (Err (HTTPException 500 (lit "PawnShop contract not configured")),
     demo_st) /\
  get_pattern bare_cfg demo_ports (lit "0x1234") demo_st
  = (Err (HTTPException 500 (lit "PawnShop contract not configured")),
     demo_st).
Proof.
  assert (Hhex : Py.fromhex (Py.replace (lit "0x") (lit "") (lit "0x1234"))
                 = Ok [x12; x34]) by (vm_compute; reflexivity).
  split; [reflexivity|].
  exact (unconfigured_contract_is_reported bare_cfg demo_lib demo_ports
           (lit "0x1234") (lit "alice") (lit "0xkey") demo_st [x12; x34]
           Hhex eq_refl).
Defined.

Lemma check_access_returns_the_code_witness :
  check_access demo_cfg live_ports (lit "alice") (lit "0x1234") demo_st
  = (Ok {| ac_has_access := true;
           ac_ipfs_uri := Some (lit "ipfs://QmPattern");
           ac_code := Some (lit "def f(): pass") |},
     {| world := 3%nat;
        trace := [EthCall (lit "0x8004") (FnHasAccess (lit "alice") [x12; x34]);
                  EthCall (lit "0x8004") (FnGetPattern [x12; x34]);
                  RequestsGet
                    (lit "https://gateway.pinata.cloud/ipfs/QmPattern")] |}).
Proof.
  assert (Hhex : Py.fromhex (Py.replace (lit "0x") (lit "") (lit "0x1234"))
                 = Ok [x12; x34]) by (vm_compute; reflexivity).
  assert (Hcfg : PAWN_SHOP_ADDRESS demo_cfg <> [])
    by (vm_compute; discriminate).
  exact (check_access_returns_the_code demo_cfg live_ports (lit "alice")
           (lit "0x1234") demo_st _ [x12; x34] 1%nat 2%nat _
           (lit "def f(): pass") Hhex Hcfg eq_refl eq_refl eq_refl).
Defined.

Lemma get_pattern_answers_for_inactive_patterns_witness :
  fst (get_pattern demo_cfg demo_ports (lit "0x1234") demo_st)
  = Ok {| gp_code_hash := lit "0x1234";
          gp_ipfs_uri := lit "ipfs://QmPattern";
          gp_seller := lit "0x0";
          gp_price := 0; gp_quality := 0; gp_times_sold := 0;
          gp_active := false |} /\
  fst (purchase demo_cfg demo_lib demo_ports demo_purchase demo_st)
  = Err (HTTPException 404 (lit "Pattern not found or inactive")).
Proof.
  assert (Hhex : Py.fromhex (Py.replace (lit "0x") (lit "") (lit "0x1234"))
                 = Ok [x12; x34]) by (vm_compute; reflexivity).
  assert (Hcfg : PAWN_SHOP_ADDRESS demo_cfg <> [])
    by (vm_compute; discriminate).
  destruct (get_pattern_answers_for_inactive_patterns demo_cfg demo_lib
              demo_ports (lit "0x1234") (lit "0xkey") demo_st [x12; x34]
              _ 1%nat Hhex Hcfg eq_refl eq_refl) as [Hg Hp].
  split; [rewrite Hg | unfold demo_purchase; rewrite Hp]; reflexivity.
Defined.

Lemma purchase_reports_the_price_read_witness :
  fst (purchase demo_cfg demo_lib live_ports demo_purchase demo_st)
  = Ok {| pu_code_hash := lit "0x1234";
          pu_price := 824;
          pu_tx_hash := lit "0x1234";
          pu_message := lit "Purchased! -824 $RECYCLE" |} /\
  List.map is_ledger_write
    (trace (snd (purchase demo_cfg demo_lib live_ports demo_purchase demo_st)))
  = [false; true; false; false; true; true].
Proof.
  assert (Hhex : Py.fromhex (Py.replace (lit "0x") (lit "")
                               (pr_code_hash demo_purchase))
                 = Ok [x12; x34]) by (vm_compute; reflexivity).
  assert (Hcfg : PAWN_SHOP_ADDRESS demo_cfg <> [])
    by (vm_compute; discriminate).
  rewrite (purchase_reports_the_price_read demo_cfg demo_lib live_ports
             demo_purchase demo_st
             (snd (sign_and_send demo_lib live_ports
                     (built_tx) (lit "0xkey")
                     {| world := 2%nat;
                        trace := [EthCall (lit "0x8004")
                                    (FnGetPattern [x12; x34]);
                                  BuildTransaction (lit "0x8004")
                                    (FnPurchase [x12; x34])] |}))
             [x12; x34] _ 1%nat 2%nat built_tx (lit "0x1234")
             Hhex Hcfg eq_refl eq_refl eq_refl eq_refl).
  split; vm_compute; reflexivity.
Defined.

Lemma signed_deposit_submits_the_computed_quality_witness :
  exists tx_hash st3,
    deposit demo_cfg demo_lib demo_ports commit_request demo_st
    = (Ok (Deposited (lit "0x1234") (lit "ipfs://QmDemo") 97 970 tx_hash
             (lit "Deposited! +970 $RECYCLE")), st3).
Proof.
  assert (Hlen : 50 <= Py.len (dr_code commit_request))
    by (vm_compute; discriminate).
  assert (Hcfg : PAWN_SHOP_ADDRESS demo_cfg <> [])
    by (vm_compute; discriminate).
  pose (st1 := snd (upload_to_ipfs demo_cfg demo_lib demo_ports text60
                      demo_st)).
  pose (tx := [(lit "chainId", @inl Z str CHAIN_ID)]).
  pose (st2 := {| world := 2%nat;
                  trace := trace st1
                             ++ [BuildTransaction (lit "0x8004")
                                   (FnDeposit [x12; x34] (lit "ipfs://QmDemo")
                                      97)] |}).
  pose (st3 := snd (sign_and_send demo_lib demo_ports tx (lit "0xkey") st2)).
  destruct (signed_deposit_submits_the_computed_quality demo_cfg demo_lib
              demo_ports commit_request demo_st st1 st3 [x12; x34]
              (lit "ipfs://QmDemo") 2%nat tx (lit "0x1234") Hlen eq_refl Hcfg
              eq_refl eq_refl)
    as (q & key & Hq & _ & Hkey & Hrun).
  assert (Eq : q = 97).
  { assert (E : estimate_quality (dr_code commit_request) = Ok 97)
      by (vm_compute; reflexivity).
    rewrite E in Hq. injection Hq as <-. reflexivity. }
  assert (Ek : key = lit "0xkey").
  { injection Hkey as <-. reflexivity. }
  subst q key. cbv zeta in Hrun.
  exists (lit "0x1234"), st3.
  rewrite (Hrun eq_refl eq_refl). reflexivity.
Defined.

Lemma check_access_defaults_to_empty_code_witness :
  fst (check_access demo_cfg blank_ports (lit "alice") (lit "0x1234") demo_st)
  = Ok {| ac_has_access := true;
          ac_ipfs_uri := Some (lit "ipfs://QmPattern");
          ac_code := Some (lit "") |}.
Proof.
  assert (Hhex : Py.fromhex (Py.replace (lit "0x") (lit "") (lit "0x1234"))
                 = Ok [x12; x34]) by (vm_compute; reflexivity).
  assert (Hcfg : PAWN_SHOP_ADDRESS demo_cfg <> [])
    by (vm_compute; discriminate).
  exact (check_access_defaults_to_empty_code demo_cfg blank_ports
           (lit "alice") (lit "0x1234") demo_st [x12; x34] 1%nat 2%nat 3%nat
           _ _ [] Hhex Hcfg eq_refl eq_refl eq_refl eq_refl eq_refl eq_refl
           eq_refl).
Defined.
